(** * QtAvahiService: shallow embedding of src/qtavahiservice.cpp

    The service object is modelled as a record of its members (the cached
    [m_*] fields, the private [d_ptr] fields, [m_state] and the refresh
    timer).  The avahi client library is an external collaborator: each
    operation receives an [Env] that answers the library calls it makes
    (client state, [avahi_entry_group_add_service_strlst], commit, TXT
    update, [avahi_alternative_service_name], [avahi_strerror]) and the
    list of local network interfaces ([QNetworkInterface::allInterfaces]). *)

From Stdlib Require Import ZArith Lia String Bool List.
From stdpp Require Import base gmap strings.
Import ListNotations.
Open Scope string_scope.
Open Scope Z_scope.

(** ** Data *)

(** [QHostAddress]: the null address, an IPv4 address (32 bits) or an IPv6
    address (128 bits). *)
Inductive QHostAddress :=
| HANull
| HAIPv4 (a : Z)
| HAIPv6 (a : Z).

Definition host_address_eqb (x y : QHostAddress) : bool :=
  match x, y with
  | HANull, HANull => true
  | HAIPv4 a, HAIPv4 b => Z.eqb a b
  | HAIPv6 a, HAIPv6 b => Z.eqb a b
  | _, _ => false
  end.

(** [QHostAddress("0.0.0.0")] *)
Definition any_ipv4 : QHostAddress := HAIPv4 0.

(** [QHash<QString, QString>] *)
Abbreviation TxtRecords := (gmap string string).

(** [QNetworkAddressEntry]: [ip()] and [netmask()]. *)
Record QNetworkAddressEntry := mkAddressEntry {
  ae_ip : QHostAddress;
  ae_netmask : QHostAddress
}.

(** [QNetworkInterface]: [index()] and [addressEntries()]. *)
Record QNetworkInterface := mkInterface {
  if_index : Z;
  if_addressEntries : list QNetworkAddressEntry
}.

(** avahi constants *)
Definition AVAHI_OK : Z := 0.
Definition AVAHI_ERR_COLLISION : Z := -8.
Definition AVAHI_IF_UNSPEC : Z := -1.
Definition AVAHI_PROTO_INET : Z := 0.
Definition AVAHI_PROTO_INET6 : Z := 1.

(** One entry of an avahi entry group: the arguments of
    [avahi_entry_group_add_service_strlst]. *)
Record Entry := mkEntry {
  e_interface : Z;
  e_protocol : Z;
  e_name : string;
  e_type : string;
  e_port : Z;
  e_txt : TxtRecords
}.

(** An avahi entry group, as seen by the daemon: its entries and whether
    it has been committed. *)
Record Group := mkGroup {
  g_entries : list Entry;
  g_committed : bool
}.

Definition empty_group : Group := mkGroup [] false.

(** [avahi_entry_group_is_empty] *)
Definition group_is_empty (g : Group) : bool :=
  match g_entries g with [] => true | _ => false end.

(** [avahi_entry_group_reset]: withdraw all entries, keep the handle. *)
Definition group_reset (g : Group) : Group := mkGroup [] false.

(** [QtAvahiService::QtAvahiServiceState] *)
Inductive QtAvahiServiceState :=
| QtAvahiServiceStateUncommitted
| QtAvahiServiceStateRegistering
| QtAvahiServiceStateEstablished
| QtAvahiServiceStateCollision
| QtAvahiServiceStateFailure.

Definition state_eqb (x y : QtAvahiServiceState) : bool :=
  match x, y with
  | QtAvahiServiceStateUncommitted, QtAvahiServiceStateUncommitted
  | QtAvahiServiceStateRegistering, QtAvahiServiceStateRegistering
  | QtAvahiServiceStateEstablished, QtAvahiServiceStateEstablished
  | QtAvahiServiceStateCollision, QtAvahiServiceStateCollision
  | QtAvahiServiceStateFailure, QtAvahiServiceStateFailure => true
  | _, _ => false
  end.

(** [QTimer m_reregisterTimer]: interval, single-shot flag and the time
    left until the pending firing ([None] when the timer is not active). *)
Record QTimer := mkTimer {
  t_interval : Z;
  t_singleShot : bool;
  t_remaining : option Z
}.

(** [QTimer::start]: (re)schedule a firing one interval from now,
    cancelling any pending one. *)
Definition timer_start (t : QTimer) : QTimer :=
  mkTimer (t_interval t) (t_singleShot t) (Some (t_interval t)).

(** [QTimer::stop] *)
Definition timer_stop (t : QTimer) : QTimer :=
  mkTimer (t_interval t) (t_singleShot t) None.

Definition timer_isActive (t : QTimer) : bool :=
  match t_remaining t with Some _ => true | None => false end.

(** The members of [QtAvahiService] and of its [QtAvahiServicePrivate].
    [d_serviceList] is the [AvahiStringList] handle; it is abstracted by the
    mapping it was built from. *)
Record Service := mkService {
  m_name : string;
  m_hostAddress : QHostAddress;
  m_port : Z;
  m_serviceType : string;
  m_txtRecords : TxtRecords;
  d_name : string;
  d_hostAddress : QHostAddress;
  d_port : Z;
  d_type : string;
  d_txtRecords : TxtRecords;
  d_group : option Group;
  d_serviceList : option TxtRecords;
  d_error : Z;
  m_state : QtAvahiServiceState;
  m_reregisterTimer : QTimer
}.

(** The answers of the avahi client library and of Qt's interface
    enumeration during one call. *)
Record Env := mkEnv {
  client_present : bool;                  (* d_ptr->client->m_client != NULL *)
  client_running : bool;                  (* avahi_client_get_state == AVAHI_CLIENT_S_RUNNING *)
  client_errno : Z;                       (* avahi_client_errno *)
  allInterfaces : list QNetworkInterface; (* QNetworkInterface::allInterfaces() *)
  add_service : Group -> Entry -> Z;      (* avahi_entry_group_add_service_strlst *)
  group_commit : Group -> Z;              (* avahi_entry_group_commit *)
  update_service_txt : Group -> Z -> Z -> string -> string -> TxtRecords -> Z;
    (* avahi_entry_group_update_service_txt_strlst *)
  alternative_service_name : string -> string; (* avahi_alternative_service_name *)
  strerror : Z -> string                  (* avahi_strerror *)
}.

(** ** Choosing the outgoing interface *)

(** The IPv4 netmask with [p] leading one bits. *)
Definition ipv4_netmask (p : Z) : Z := Z.shiftl (Z.ones p) (32 - p).

(** [QNetmask::setAddress] / [prefixLength]: only contiguous masks. *)
Definition ipv4_prefixLength (m : Z) : option Z :=
  List.find (fun p => Z.eqb (ipv4_netmask p) m)
            (map Z.of_nat (seq 0 33)).

(** [QHostAddress::parseSubnet(ip.toString() + "/" + netmask.toString())]
    for an address entry.  An IPv4 entry with a dotted netmask parses to the
    network address and its prefix length; any other text (an IPv6 netmask is
    not a bit count, a null netmask prints as the empty string) gives the
    invalid pair [(QHostAddress(), -1)]. *)
Definition parseSubnet (e : QNetworkAddressEntry) : QHostAddress * Z :=
  match ae_ip e, ae_netmask e with
  | HAIPv4 ip, HAIPv4 m =>
      match ipv4_prefixLength m with
      | Some p => (HAIPv4 (Z.land ip (ipv4_netmask p)), p)
      | None => (HANull, -1)
      end
  | _, _ => (HANull, -1)
  end.

(** [QHostAddress::isInSubnet(subnet, netmask)] *)
Definition isInSubnet (a subnet : QHostAddress) (netmask : Z) : bool :=
  match a, subnet with
  | HAIPv4 x, HAIPv4 s =>
      (0 <=? netmask) && (netmask <=? 32) &&
      Z.eqb (Z.shiftr x (32 - netmask)) (Z.shiftr s (32 - netmask))
  | HAIPv6 x, HAIPv6 s =>
      (0 <=? netmask) && (netmask <=? 128) &&
      Z.eqb (Z.shiftr x (128 - netmask)) (Z.shiftr s (128 - netmask))
  | _, _ => false
  end.

(** The inner [foreach] over [interface.addressEntries()]: on the first
    entry whose subnet contains the address it sets [ifIndex] and leaves
    the inner loop ([break]). *)
Fixpoint scanAddressEntries (a : QHostAddress) (index : Z)
         (entries : list QNetworkAddressEntry) (ifIndex : Z) : Z :=
  match entries with
  | [] => ifIndex
  | e :: rest =>
      let subnet := parseSubnet e in
      if isInSubnet a (fst subnet) (snd subnet) then index
      else scanAddressEntries a index rest ifIndex
  end.

(** The interface selection of [registerService] (lines 156-167) and of
    [updateTxtRecord] (lines 249-260): the outer [foreach] runs over all
    interfaces. *)
Definition resolveIfIndex (interfaces : list QNetworkInterface)
           (a : QHostAddress) : Z :=
  if negb (host_address_eqb a any_ipv4) then
    fold_left (fun ifIndex iface =>
                 scanAddressEntries a (if_index iface)
                                    (if_addressEntries iface) ifIndex)
              interfaces AVAHI_IF_UNSPEC
  else AVAHI_IF_UNSPEC.

(** [hostAddress.protocol() == IPv6Protocol ? AVAHI_PROTO_INET6 : AVAHI_PROTO_INET] *)
Definition avahi_protocol (a : QHostAddress) : Z :=
  match a with HAIPv6 _ => AVAHI_PROTO_INET6 | _ => AVAHI_PROTO_INET end.

(** ** Member updates *)

(** Lines 136-147: [m_name = name; ...; d_ptr->txtRecords = txtRecords;] *)
Definition cacheDescriptor (name : string) (a : QHostAddress) (port : Z)
           (type : string) (txt : TxtRecords) (s : Service) : Service :=
  mkService name a port type txt name a port type txt
            (d_group s) (d_serviceList s) (d_error s) (m_state s)
            (m_reregisterTimer s).

Definition set_m_txtRecords (txt : TxtRecords) (s : Service) : Service :=
  mkService (m_name s) (m_hostAddress s) (m_port s) (m_serviceType s) txt
            (d_name s) (d_hostAddress s) (d_port s) (d_type s) (d_txtRecords s)
            (d_group s) (d_serviceList s) (d_error s) (m_state s)
            (m_reregisterTimer s).

Definition set_group (g : option Group) (s : Service) : Service :=
  mkService (m_name s) (m_hostAddress s) (m_port s) (m_serviceType s)
            (m_txtRecords s) (d_name s) (d_hostAddress s) (d_port s) (d_type s)
            (d_txtRecords s) g (d_serviceList s) (d_error s) (m_state s)
            (m_reregisterTimer s).

Definition set_serviceList (l : option TxtRecords) (s : Service) : Service :=
  mkService (m_name s) (m_hostAddress s) (m_port s) (m_serviceType s)
            (m_txtRecords s) (d_name s) (d_hostAddress s) (d_port s) (d_type s)
            (d_txtRecords s) (d_group s) l (d_error s) (m_state s)
            (m_reregisterTimer s).

Definition set_error (err : Z) (s : Service) : Service :=
  mkService (m_name s) (m_hostAddress s) (m_port s) (m_serviceType s)
            (m_txtRecords s) (d_name s) (d_hostAddress s) (d_port s) (d_type s)
            (d_txtRecords s) (d_group s) (d_serviceList s) err (m_state s)
            (m_reregisterTimer s).

Definition set_state (st : QtAvahiServiceState) (s : Service) : Service :=
  mkService (m_name s) (m_hostAddress s) (m_port s) (m_serviceType s)
            (m_txtRecords s) (d_name s) (d_hostAddress s) (d_port s) (d_type s)
            (d_txtRecords s) (d_group s) (d_serviceList s) (d_error s) st
            (m_reregisterTimer s).

Definition set_timer (t : QTimer) (s : Service) : Service :=
  mkService (m_name s) (m_hostAddress s) (m_port s) (m_serviceType s)
            (m_txtRecords s) (d_name s) (d_hostAddress s) (d_port s) (d_type s)
            (d_txtRecords s) (d_group s) (d_serviceList s) (d_error s)
            (m_state s) t.

(** ** Accessors *)

Definition hostAddress (s : Service) : QHostAddress := d_hostAddress s.
Definition port (s : Service) : Z := d_port s.
Definition name (s : Service) : string := d_name s.
Definition serviceType (s : Service) : string := d_type s.
Definition txtRecords (s : Service) : TxtRecords := d_txtRecords s.
Definition state (s : Service) : QtAvahiServiceState := m_state s.

(** [isValid]: [d_ptr->group && !d_ptr->error] *)
Definition isValid (s : Service) : bool :=
  match d_group s with
  | Some _ => Z.eqb (d_error s) 0
  | None => false
  end.

(** [errorString] *)
Definition errorString (env : Env) : string :=
  if negb (client_present env) then "Invalid client."
  else strerror env (client_errno env).

(** The group handle after [if (!d_ptr->group) d_ptr->group =
    avahi_entry_group_new(...)] (group creation is taken to succeed). *)
Definition current_group (s : Service) : Group :=
  match d_group s with Some g => g | None => empty_group end.

(** ** Operations *)

(** [resetService(silent)] (lines 220-238); [silent] only guards a log line. *)
Definition resetService (silent : bool) (s : Service) : Service :=
  match d_group s with
  | None => s
  | Some g =>
      set_timer (timer_stop (m_reregisterTimer s))
        (set_group (Some (group_reset g)) (set_serviceList None s))
  end.

(** The entry passed to [avahi_entry_group_add_service_strlst] (lines
    174-183), built from the [d_ptr] fields after [cacheDescriptor]. *)
Definition registerEntry (interfaces : list QNetworkInterface)
           (s : Service) : Entry :=
  mkEntry (resolveIfIndex interfaces (d_hostAddress s))
          (avahi_protocol (d_hostAddress s))
          (d_name s) (d_type s) (d_port s) (d_txtRecords s).

(** Lines 201-216: commit the group and, on success, (re)start the refresh
    timer and return true. *)
Definition commitAndArm (env : Env) (s : Service) : option (bool * Service) :=
  let g := current_group s in
  let err := group_commit env g in
  let s := set_error err s in
  if negb (Z.eqb err 0) then Some (false, s)
  else Some (true, set_timer (timer_start (m_reregisterTimer s))
                             (set_group (Some (mkGroup (g_entries g) true)) s)).

(** [handleCollision] (lines 298-307), given the [registerService] it calls. *)
Definition handleCollisionWith
           (register : string -> QHostAddress -> Z -> string -> TxtRecords ->
                       bool -> Service -> option (bool * Service))
           (env : Env) (s : Service) : option (bool * Service) :=
  let alternativeServiceName := alternative_service_name env (name s) in
  let s := resetService false s in
  register alternativeServiceName (hostAddress s) (port s) (serviceType s)
           (txtRecords s) false s.

(** [registerService] (lines 127-217).  The collision path recurses without
    bound in the source; [fuel] bounds the number of nested collision
    retries and [None] stands for running out of it.  A retry that returns
    true falls through to the second commit at line 202. *)
Fixpoint registerService (env : Env) (fuel : nat) (name : string)
         (a : QHostAddress) (port : Z) (serviceType : string)
         (txt : TxtRecords) (silent : bool) (s : Service)
         : option (bool * Service) :=
  if negb (client_present env && client_running env) then Some (false, s)
  else
    let s := cacheDescriptor name a port serviceType txt s in
    let s := set_group (Some (current_group s)) s in
    let g := current_group s in
    if group_is_empty g then
      let s := set_serviceList (Some txt) s in
      let e := registerEntry (allInterfaces env) s in
      let err := add_service env g e in
      let s := set_error err
                 (if Z.eqb err 0 then set_group (Some (mkGroup (g_entries g ++ [e])
                                                               (g_committed g))) s
                  else s) in
      if negb (Z.eqb err 0) then
        if Z.eqb err AVAHI_ERR_COLLISION then
          match fuel with
          | O => None
          | S fuel' =>
              match handleCollisionWith (registerService env fuel') env s with
              | None => None
              | Some (false, s') => Some (false, s')
              | Some (true, s') => commitAndArm env s'
              end
          end
        else Some (false, s)
      else commitAndArm env s
    else Some (false, s).

Definition handleCollision (env : Env) (fuel : nat) (s : Service)
  : option (bool * Service) :=
  handleCollisionWith (registerService env fuel) env s.

(** The daemon's side of a successful TXT update: the matching entry
    gets the new TXT data in place. *)
Definition group_update_txt (g : Group) (ifIndex proto : Z) (n t : string)
           (txt : TxtRecords) : Group :=
  mkGroup (map (fun e =>
                  if Z.eqb (e_interface e) ifIndex && Z.eqb (e_protocol e) proto
                     && String.eqb (e_name e) n && String.eqb (e_type e) t
                  then mkEntry (e_interface e) (e_protocol e) (e_name e)
                               (e_type e) (e_port e) txt
                  else e) (g_entries g))
          (g_committed g).

(** [updateTxtRecord] (lines 241-281). *)
Definition updateTxtRecord (env : Env) (txt : TxtRecords) (s : Service)
  : bool * Service :=
  match d_group s with
  | None => (false, s)
  | Some g =>
      let s := set_m_txtRecords txt s in
      let ifIndex := resolveIfIndex (allInterfaces env) (d_hostAddress s) in
      let proto := avahi_protocol (d_hostAddress s) in
      let s := set_serviceList (Some txt) s in
      let err := update_service_txt env g ifIndex proto (d_name s) (d_type s) txt in
      let s := set_error err
                 (if Z.eqb err 0
                  then set_group (Some (group_update_txt g ifIndex proto
                                          (d_name s) (d_type s) txt)) s
                  else s) in
      if negb (Z.eqb err 0) then (false, s) else (true, s)
  end.

(** [onStateChanged] (lines 309-335), the slot connected to
    [serviceStateChanged]; only the collision case acts. *)
Definition onStateChanged (env : Env) (fuel : nat) (st : QtAvahiServiceState)
           (s : Service) : option Service :=
  if state_eqb (m_state s) st then Some s
  else
    let s := set_state st s in
    match st with
    | QtAvahiServiceStateCollision =>
        match handleCollision env fuel s with
        | Some (_, s') => Some s'
        | None => None
        end
    | _ => Some s
    end.

(** The timeout lambda of the constructor (lines 72-76); a single-shot
    timer is no longer active once it has fired. *)
Definition reregisterTimeout (env : Env) (fuel : nat) (s : Service)
  : option Service :=
  let s := set_timer (timer_stop (m_reregisterTimer s)) s in
  let s := resetService true s in
  match registerService env fuel (m_name s) (m_hostAddress s) (m_port s)
                        (m_serviceType s) (m_txtRecords s) true s with
  | Some (_, s') => Some s'
  | None => None
  end.

(** The constructor (lines 60-77): state [Uncommitted], no group and no TXT
    list yet, a 60000 ms single-shot timer that is not running.  The
    descriptor members start default-constructed. *)
Definition initial : Service :=
  mkService "" HANull 0 "" ∅ "" HANull 0 "" ∅ None None 0
            QtAvahiServiceStateUncommitted (mkTimer 60000 true None).

(** Everything that can happen to a service: a call of one of its public
    operations, a state-change callback of the avahi client, or the firing
    of the refresh timer.  The environment may differ from one event to the
    next. *)
Inductive step : Service -> Service -> Prop :=
| step_register env fuel n a p t txt silent s b s' :
    registerService env fuel n a p t txt silent s = Some (b, s') -> step s s'
| step_reset silent s : step s (resetService silent s)
| step_update env txt s b s' :
    updateTxtRecord env txt s = (b, s') -> step s s'
| step_state_changed env fuel st s s' :
    onStateChanged env fuel st s = Some s' -> step s s'
| step_timeout env fuel s s' :
    timer_isActive (m_reregisterTimer s) = true ->
    reregisterTimeout env fuel s = Some s' -> step s s'.

Inductive reachable : Service -> Prop :=
| reachable_initial : reachable initial
| reachable_step s s' : reachable s -> step s s' -> reachable s'.

(** The descriptor the refresh timer re-registers with ([m_*] members) and
    the one collision handling re-registers with (the accessors). *)
Definition m_descriptor (s : Service)
  : string * QHostAddress * Z * string * TxtRecords :=
  (m_name s, m_hostAddress s, m_port s, m_serviceType s, m_txtRecords s).

Definition d_descriptor (s : Service)
  : string * QHostAddress * Z * string * TxtRecords :=
  (name s, hostAddress s, port s, serviceType s, txtRecords s).

(** The timer facts that hold in every reachable configuration: a running
    timer implies that a group exists, and the timer keeps the constructor's
    60000 ms single-shot configuration. *)
Definition timer_inv (s : Service) : Prop :=
  (timer_isActive (m_reregisterTimer s) = true -> d_group s <> None) /\
  t_interval (m_reregisterTimer s) = 60000 /\
  t_singleShot (m_reregisterTimer s) = true.

(** ** Reading of the specification used for comparison *)

(** The interface index the specification describes: the index of the
    FIRST interface (in enumeration order) having an address entry whose
    subnet contains [a]; unspecified for the wildcard or when none does. *)
Definition spec_first_matching_interface (interfaces : list QNetworkInterface)
           (a : QHostAddress) : Z :=
  if host_address_eqb a any_ipv4 then AVAHI_IF_UNSPEC
  else
    match List.find (fun iface =>
                       existsb (fun e => let sn := parseSubnet e in
                                         isInSubnet a (fst sn) (snd sn))
                               (if_addressEntries iface)) interfaces with
    | Some iface => if_index iface
    | None => AVAHI_IF_UNSPEC
    end.

(** ** Further definitions *)

(** Whether an address entry's subnet contains [a]: the test of line 161. *)
Definition entry_matches (a : QHostAddress) (e : QNetworkAddressEntry) : bool :=
  let subnet := parseSubnet e in isInSubnet a (fst subnet) (snd subnet).

(** Whether some address entry of an interface contains [a]. *)
Definition interface_matches (a : QHostAddress) (i : QNetworkInterface) : bool :=
  existsb (entry_matches a) (if_addressEntries i).

(** The handles the destructor (lines 80-90) hands back to avahi. *)
Inductive Released := ReleasedServiceList | ReleasedGroup.

Definition destructor (s : Service) : list Released :=
  match d_group s with
  | Some _ =>
      match d_serviceList s with
      | Some _ => [ReleasedServiceList]
      | None => []
      end ++ [ReleasedGroup]
  | None => []
  end.

(** Facts kept in every reachable configuration: a TXT list is only held
    while a group exists, and the refresh descriptor agrees with the
    accessors on name, address, port and type. *)
Definition service_inv (s : Service) : Prop :=
  (d_serviceList s <> None -> d_group s <> None) /\
  m_name s = d_name s /\ m_hostAddress s = d_hostAddress s /\
  m_port s = d_port s /\ m_serviceType s = d_type s.

(** ** Concrete inputs *)

Definition ipv4 (b1 b2 b3 b4 : Z) : QHostAddress :=
  HAIPv4 (b1 * 16777216 + b2 * 65536 + b3 * 256 + b4).

(** Two interfaces whose subnets both contain 192.168.1.10: index 2 on
    192.168.1.0/24, index 3 on 192.168.0.0/16. *)
Definition two_interfaces : list QNetworkInterface :=
  [ mkInterface 2 [mkAddressEntry (ipv4 192 168 1 1) (ipv4 255 255 255 0)];
    mkInterface 3 [mkAddressEntry (ipv4 192 168 0 1) (ipv4 255 255 0 0)] ].

(** Three interfaces for the selection: two LANs whose subnets overlap,
    an unrelated one, and a 172.16/12 network. *)
Definition lan24 : QNetworkInterface :=
  mkInterface 2 [mkAddressEntry (ipv4 192 168 1 1) (ipv4 255 255 255 0)].
Definition lan16 : QNetworkInterface :=
  mkInterface 3 [mkAddressEntry (ipv4 192 168 0 1) (ipv4 255 255 0 0)].
Definition vpn8 : QNetworkInterface :=
  mkInterface 4 [mkAddressEntry (ipv4 10 0 0 1) (ipv4 255 0 0 0)].
Definition wan12 : QNetworkInterface :=
  mkInterface 5 [mkAddressEntry (ipv4 172 16 0 1) (ipv4 255 240 0 0)].

(** A running client on which every call succeeds, except that committing
    a group that is already committed fails with AVAHI_ERR_BAD_STATE (-2),
    and names are mangled by appending " #2". *)
Definition env_ok (interfaces : list QNetworkInterface) : Env :=
  mkEnv true true 0 interfaces
        (fun _ _ => 0)
        (fun g => if g_committed g then -2 else 0)
        (fun _ _ _ _ _ _ => 0)
        (fun n => n ++ " #2")
        (fun e => if Z.eqb e 0 then "OK" else "Error").

(** The same client, no longer running. *)
Definition env_down (interfaces : list QNetworkInterface) : Env :=
  mkEnv true false 0 interfaces
        (fun _ _ => 0) (fun _ => 0) (fun _ _ _ _ _ _ => 0)
        (fun n => n ++ " #2")
        (fun e => if Z.eqb e 0 then "OK" else "Error").

(** A running client whose daemon reports a name collision for every
    entry it is asked to add. *)
Definition env_collide (interfaces : list QNetworkInterface) : Env :=
  mkEnv true true 0 interfaces
        (fun _ _ => AVAHI_ERR_COLLISION) (fun _ => 0) (fun _ _ _ _ _ _ => 0)
        (fun n => n ++ " #2")
        (fun e => if Z.eqb e 0 then "OK" else "Error").

(** A running client whose daemon already has a service called
    "printer" (adding it collides, any other name is accepted) and refuses
    to commit a group twice. *)
Definition env_taken (interfaces : list QNetworkInterface) : Env :=
  mkEnv true true 0 interfaces
        (fun _ e => if String.eqb (e_name e) "printer" then AVAHI_ERR_COLLISION
                    else 0)
        (fun g => if g_committed g then -2 else 0)
        (fun _ _ _ _ _ _ => 0)
        (fun n => n ++ " #2")
        (fun e => if Z.eqb e 0 then "OK" else "Error").

Definition office : TxtRecords := {[ "note" := "office" ]}.
Definition home : TxtRecords := {[ "note" := "home" ]}.

Definition registered_printer : option (bool * Service) :=
  registerService (env_ok []) 0 "printer" any_ipv4 9100 "_ipp._tcp" office
                  false initial.

Definition printer_state : Service :=
  match registered_printer with Some (_, s) => s | None => initial end.

(** A second registration on the same service, without a reset. *)
Definition printer2_attempt : option (bool * Service) :=
  registerService (env_ok []) 0 "printer2" any_ipv4 9100 "_ipp._tcp" office
                  false printer_state.

Definition printer2_state : Service :=
  match printer2_attempt with Some (_, s) => s | None => initial end.

(** The group published for the registered printer. *)
Definition printer_group : Group :=
  mkGroup [mkEntry AVAHI_IF_UNSPEC AVAHI_PROTO_INET "printer" "_ipp._tcp" 9100
                   office] true.

(** The registered printer after an accepted TXT update to [home]. *)
Definition printer_updated : Service :=
  snd (updateTxtRecord (env_ok []) home printer_state).

Example ex_resolve_last :
  resolveIfIndex two_interfaces (ipv4 192 168 1 10) = 3.
Proof. vm_compute. reflexivity. Qed.

Example ex_spec_first :
  spec_first_matching_interface two_interfaces (ipv4 192 168 1 10) = 2.
Proof. vm_compute. reflexivity. Qed.

Example ex_registered :
  option_map fst registered_printer = Some true.
Proof. vm_compute. reflexivity. Qed.

(** ** General facts about the operations *)

Lemma state_eqb_true (x y : QtAvahiServiceState) : state_eqb x y = true <-> x = y.
Proof. destruct x, y; simpl; split; congruence. Qed.

Lemma resetService_m_state silent s :
  m_state (resetService silent s) = m_state s.
Proof. unfold resetService; destruct (d_group s); reflexivity. Qed.

Lemma commitAndArm_m_state env s b s' :
  commitAndArm env s = Some (b, s') -> m_state s' = m_state s.
Proof.
  unfold commitAndArm; destruct (Z.eqb _ 0); simpl; intros H; inversion H; reflexivity.
Qed.

(** No path of [registerService] writes [m_state]. *)
Lemma registerService_m_state env fuel :
  forall n a p t txt silent s b s',
    registerService env fuel n a p t txt silent s = Some (b, s') ->
    m_state s' = m_state s.
Proof.
  induction fuel as [|fuel IH]; intros n a p t txt silent s b s' H;
    simpl in H;
    destruct (negb (client_present env && client_running env));
    try (inversion H; reflexivity);
    destruct (group_is_empty _); try (inversion H; reflexivity);
    destruct (Z.eqb (add_service env _ _) 0) eqn:E0; simpl in H;
    try (apply commitAndArm_m_state in H; exact H);
    destruct (Z.eqb (add_service env _ _) AVAHI_ERR_COLLISION);
    try (inversion H; reflexivity).
  unfold handleCollisionWith in H.
  destruct (registerService env fuel _ _ _ _ _ _ _) as [[[|] s1]|] eqn:ER;
    try discriminate.
  - apply IH in ER. apply commitAndArm_m_state in H.
    rewrite H, ER, resetService_m_state. reflexivity.
  - inversion H; subst. apply IH in ER. rewrite ER, resetService_m_state.
    reflexivity.
Qed.

Lemma handleCollision_m_state env fuel s b s' :
  handleCollision env fuel s = Some (b, s') -> m_state s' = m_state s.
Proof.
  unfold handleCollision, handleCollisionWith. intros H.
  apply registerService_m_state in H. rewrite H, resetService_m_state.
  reflexivity.
Qed.

(** One unfolding of [registerService] once the client check has passed. *)
Lemma registerService_ready (env : Env) (fuel : nat) (n : string)
      (a : QHostAddress) (p : Z) (t : string) (txt : TxtRecords)
      (silent : bool) (s : Service) :
  client_present env && client_running env = true ->
  registerService env fuel n a p t txt silent s =
  let s0 := set_group (Some (current_group s)) (cacheDescriptor n a p t txt s) in
  let g := current_group s in
  if group_is_empty g then
    let s1 := set_serviceList (Some txt) s0 in
    let e := mkEntry (resolveIfIndex (allInterfaces env) a) (avahi_protocol a)
                     n t p txt in
    let err := add_service env g e in
    let s2 := set_error err
                (if Z.eqb err 0
                 then set_group (Some (mkGroup (g_entries g ++ [e])
                                               (g_committed g))) s1
                 else s1) in
    if negb (Z.eqb err 0) then
      if Z.eqb err AVAHI_ERR_COLLISION then
        match fuel with
        | O => None
        | S fuel' =>
            match handleCollision env fuel' s2 with
            | None => None
            | Some (false, s') => Some (false, s')
            | Some (true, s') => commitAndArm env s'
            end
        end
      else Some (false, s2)
    else commitAndArm env s2
  else Some (false, s0).
Proof. intros H. destruct fuel; cbn [registerService]; rewrite H; reflexivity. Qed.

Lemma registerService_not_ready env fuel n a p t txt silent s :
  client_present env && client_running env = false ->
  registerService env fuel n a p t txt silent s = Some (false, s).
Proof. intros H. destruct fuel; cbn [registerService]; rewrite H; reflexivity. Qed.

Lemma onStateChanged_collision env fuel s :
  m_state s <> QtAvahiServiceStateCollision ->
  onStateChanged env fuel QtAvahiServiceStateCollision s =
  option_map snd (handleCollision env fuel
                    (set_state QtAvahiServiceStateCollision s)).
Proof.
  intros Hne. unfold onStateChanged.
  destruct (state_eqb (m_state s) QtAvahiServiceStateCollision) eqn:E.
  { apply state_eqb_true in E. contradiction. }
  destruct (handleCollision _ _ _) as [[b s']|]; reflexivity.
Qed.

(** ** Claims *)

(** C5: delivering the cached state again changes nothing; delivering a
    different state records it, runs collision handling exactly when the
    new state is Collision and does nothing else otherwise; after a
    collision retry the cached state is still the delivered one. *)
Theorem onStateChanged_spec (env : Env) (fuel : nat)
        (st : QtAvahiServiceState) (s : Service) :
  (m_state s = st -> onStateChanged env fuel st s = Some s) /\
  (m_state s <> st ->
     (st = QtAvahiServiceStateCollision ->
        onStateChanged env fuel st s =
        option_map snd (handleCollision env fuel (set_state st s))) /\
     (st <> QtAvahiServiceStateCollision ->
        onStateChanged env fuel st s = Some (set_state st s)) /\
     (forall s', onStateChanged env fuel st s = Some s' -> m_state s' = st)).
Proof.
  unfold onStateChanged. split.
  - intros <-. replace (state_eqb (m_state s) (m_state s)) with true
      by (symmetry; apply state_eqb_true; reflexivity). reflexivity.
  - intros Hne.
    destruct (state_eqb (m_state s) st) eqn:E.
    { apply state_eqb_true in E. contradiction. }
    split; [|split].
    + intros ->. destruct (handleCollision _ _ _) as [[b s']|]; reflexivity.
    + intros Hc. destruct st; try reflexivity; contradiction.
    + intros s' H. destruct st; try (inversion H; reflexivity).
      destruct (handleCollision env fuel _) as [[b s1]|] eqn:Eh; [|discriminate].
      inversion H; subst. apply handleCollision_m_state in Eh.
      rewrite Eh. reflexivity.
Qed.

Lemma onStateChanged_spec_witness :
  m_state initial = QtAvahiServiceStateUncommitted /\
  onStateChanged (env_ok []) 1 QtAvahiServiceStateUncommitted initial
  = Some initial /\
  m_state initial <> QtAvahiServiceStateCollision /\
  onStateChanged (env_ok []) 1 QtAvahiServiceStateCollision initial =
  option_map snd (handleCollision (env_ok []) 1
                    (set_state QtAvahiServiceStateCollision initial)).
Proof.
  split; [reflexivity|]. split.
  - apply (proj1 (onStateChanged_spec (env_ok []) 1
                    QtAvahiServiceStateUncommitted initial)); reflexivity.
  - split; [discriminate|].
    apply (proj1 (proj2 (onStateChanged_spec (env_ok []) 1
                           QtAvahiServiceStateCollision initial)
                   ltac:(discriminate))); reflexivity.
Defined.

(** C8: when the client is missing or not running, [registerService]
    returns false and leaves every member untouched. *)
Theorem registerService_client_not_running (env : Env) (fuel : nat)
        (n : string) (a : QHostAddress) (p : Z) (t : string)
        (txt : TxtRecords) (silent : bool) (s : Service) :
  client_present env && client_running env = false ->
  registerService env fuel n a p t txt silent s = Some (false, s).
Proof.
  intros H. destruct fuel; simpl; rewrite H; reflexivity.
Qed.

Lemma registerService_client_not_running_witness :
  client_present (env_down []) && client_running (env_down []) = false /\
  registerService (env_down []) 0 "printer" any_ipv4 9100 "_ipp._tcp" office
                  false initial = Some (false, initial).
Proof.
  split; [reflexivity|].
  apply registerService_client_not_running. reflexivity.
Defined.

(** C9: [resetService] does nothing without a group; with a group it
    drops the TXT list, resets the group and stops the timer, records no
    error, and a second call leaves the same members. *)
Theorem resetService_idempotent (silent silent' : bool) (s : Service) :
  (d_group s = None -> resetService silent s = s) /\
  (forall g, d_group s = Some g ->
     let s1 := resetService silent s in
     d_serviceList s1 = None /\
     d_group s1 = Some (group_reset g) /\
     timer_isActive (m_reregisterTimer s1) = false /\
     d_error s1 = d_error s /\
     resetService silent' s1 = s1).
Proof.
  unfold resetService. split.
  - intros ->. reflexivity.
  - intros g Hg. rewrite Hg. simpl.
    repeat split; reflexivity.
Qed.

(** On the registered printer, which holds a TXT list, a committed group
    with one entry and a running timer, the first reset releases the list,
    withdraws the entry and stops the timer; the second changes nothing. *)
Lemma resetService_idempotent_witness :
  d_group initial = None /\ resetService false initial = initial /\
  d_serviceList printer_state = Some office /\
  d_group printer_state = Some printer_group /\
  timer_isActive (m_reregisterTimer printer_state) = true /\
  d_serviceList (resetService false printer_state) = None /\
  d_group (resetService false printer_state) = Some (group_reset printer_group) /\
  timer_isActive (m_reregisterTimer (resetService false printer_state)) = false /\
  d_error (resetService false printer_state) = d_error printer_state /\
  resetService true (resetService false printer_state)
  = resetService false printer_state.
Proof.
  split; [reflexivity|]. split.
  { apply (proj1 (resetService_idempotent false false initial)). reflexivity. }
  split; [vm_compute; reflexivity|].
  assert (Hg : d_group printer_state = Some printer_group)
    by (vm_compute; reflexivity).
  split; [exact Hg|]. split; [vm_compute; reflexivity|].
  exact (proj2 (resetService_idempotent false true printer_state)
               printer_group Hg).
Defined.

(** C1 (as the code behaves): with two interfaces whose subnets both
    contain the bind address, the outer loop is not left by the [break], so
    the LAST matching interface (index 3) is used, while the first matching
    one is index 2; the entry added by [registerService] carries index 3. *)
Theorem registerService_interface_last_match :
  resolveIfIndex two_interfaces (ipv4 192 168 1 10) = 3 /\
  spec_first_matching_interface two_interfaces (ipv4 192 168 1 10) = 2 /\
  option_map (fun r => option_map (fun g => map e_interface (g_entries g))
                                  (d_group (snd r)))
    (registerService (env_ok two_interfaces) 0 "printer" (ipv4 192 168 1 10)
                     9100 "_ipp._tcp" office false initial)
  = Some (Some [3]).
Proof. vm_compute. repeat split. Qed.

Lemma office_neq_home : office <> home.
Proof. intros H. apply (f_equal (lookup "note")) in H. vm_compute in H. discriminate. Qed.

(** C3 (as the code behaves): after a successful registration with
    {note: office}, an accepted [updateTxtRecord] with {note: home} returns
    true, but [txtRecords()] still returns {note: office} (only
    [m_txtRecords] was replaced), and a collision retry re-registers with
    {note: office}. *)
Theorem updateTxtRecord_keeps_accessor_metadata :
  match registered_printer with
  | Some (true, s1) =>
      let (ok, s2) := updateTxtRecord (env_ok []) home s1 in
      ok = true /\ txtRecords s2 = office /\ txtRecords s2 <> home /\
      m_txtRecords s2 = home /\
      option_map (fun r => txtRecords (snd r)) (handleCollision (env_ok []) 0 s2)
      = Some office
  | _ => False
  end.
Proof.
  vm_compute. split; [reflexivity|]. split; [reflexivity|].
  split; [exact office_neq_home|]. split; reflexivity.
Qed.

(** C2 (counterexample): registering a second time on the same service
    without a reset returns false but records no error, so [isValid] stays
    true. *)
Lemma registerService_false_but_valid :
  ~ (forall env fuel n a p t txt silent s s',
       registerService env fuel n a p t txt silent s = Some (false, s') ->
       isValid s' = false).
Proof.
  intros H.
  assert (E : registerService (env_ok []) 0 "printer2" any_ipv4 9100
                "_ipp._tcp" office false printer_state
              = Some (false, printer2_state)) by (vm_compute; reflexivity).
  apply H in E. vm_compute in E. discriminate.
Qed.

(** C2 (as amended): a [registerService] that returns false never changes
    the cached state, and [errorString] is non-empty whenever avahi's error
    text is.  If the client is not ready nothing changes; if the group is not
    empty, the group, the recorded error (hence [isValid]) and the timer are
    as before; if add-service failed with a non-collision error or the commit
    failed, [isValid] is false and the group is not committed by the call. *)
Theorem registerService_false_outcome (env : Env) (fuel : nat) (n : string)
        (a : QHostAddress) (p : Z) (t : string) (txt : TxtRecords)
        (silent : bool) (s s' : Service) :
  registerService env fuel n a p t txt silent s = Some (false, s') ->
  m_state s' = m_state s /\
  ((forall e, strerror env e <> "") -> errorString env <> "") /\
  (client_present env && client_running env = false -> s' = s) /\
  (client_present env && client_running env = true ->
     group_is_empty (current_group s) = false ->
     d_group s' = d_group s /\ d_error s' = d_error s /\
     isValid s' = isValid s /\ m_reregisterTimer s' = m_reregisterTimer s) /\
  (client_present env && client_running env = true ->
     group_is_empty (current_group s) = true ->
     add_service env (current_group s)
       (mkEntry (resolveIfIndex (allInterfaces env) a) (avahi_protocol a)
                n t p txt) <> AVAHI_ERR_COLLISION ->
     isValid s' = false /\
     g_committed (current_group s') = g_committed (current_group s) /\
     m_reregisterTimer s' = m_reregisterTimer s).
Proof.
  intros H. split; [exact (registerService_m_state _ _ _ _ _ _ _ _ _ _ _ H)|].
  split.
  { intros Hs. unfold errorString. destruct (client_present env); simpl;
      [apply Hs | discriminate]. }
  split.
  { intros Hr. rewrite registerService_not_ready in H by exact Hr.
    congruence. }
  split.
  - intros Hr He.
    rewrite registerService_ready in H by exact Hr. cbv zeta in H.
    rewrite He in H. injection H as <-.
    unfold isValid, current_group in *; simpl.
    destruct (d_group s); [repeat split | discriminate].
  - intros Hr He Hc.
    rewrite registerService_ready in H by exact Hr. cbv zeta in H.
    rewrite He in H.
    destruct (Z.eqb (add_service env _ _) 0) eqn:E0; simpl in H.
    + unfold commitAndArm in H.
      destruct (Z.eqb (group_commit env _) 0) eqn:E1; simpl in H;
        [discriminate|].
      injection H as <-. unfold isValid; simpl. rewrite E1. repeat split.
    + rewrite (proj2 (Z.eqb_neq _ _) Hc) in H. injection H as <-.
      unfold isValid; simpl. rewrite E0. repeat split.
Qed.

Lemma registerService_false_outcome_witness :
  registerService (env_ok []) 0 "printer2" any_ipv4 9100 "_ipp._tcp" office
                  false printer_state = Some (false, printer2_state) /\
  m_state printer2_state = m_state printer_state.
Proof.
  assert (E : registerService (env_ok []) 0 "printer2" any_ipv4 9100
                "_ipp._tcp" office false printer_state
              = Some (false, printer2_state)) by (vm_compute; reflexivity).
  split; [exact E|].
  exact (proj1 (registerService_false_outcome _ _ _ _ _ _ _ _ _ _ E)).
Defined.

Lemma commitAndArm_descriptors env s b s' :
  commitAndArm env s = Some (b, s') ->
  m_descriptor s' = m_descriptor s /\ d_descriptor s' = d_descriptor s.
Proof.
  unfold commitAndArm; destruct (Z.eqb _ 0); simpl; intros H;
    injection H as _ <-; split; reflexivity.
Qed.

Lemma resetService_d_descriptor silent s :
  d_descriptor (resetService silent s) = d_descriptor s.
Proof. unfold resetService; destruct (d_group s); reflexivity. Qed.

(** With a ready client, the descriptor left by [registerService] is the
    call's one, with the name mangled once per collision retry. *)
Lemma registerService_descriptor_iter env fuel :
  forall n a p t txt silent s b s',
    client_present env && client_running env = true ->
    registerService env fuel n a p t txt silent s = Some (b, s') ->
    d_descriptor s' = m_descriptor s' /\
    exists k, m_descriptor s' =
              (Nat.iter k (alternative_service_name env) n, a, p, t, txt).
Proof.
  induction fuel as [|fuel IH]; intros n a p t txt silent s b s' Hr H;
    rewrite registerService_ready in H by exact Hr; cbv zeta in H;
    destruct (group_is_empty (current_group s));
    try (injection H as _ <-; split; [reflexivity | exists 0%nat; reflexivity]);
    destruct (Z.eqb (add_service env _ _) 0); simpl in H;
    try (apply commitAndArm_descriptors in H; destruct H as [H1 H2];
         rewrite H1, H2; split; [reflexivity | exists 0%nat; reflexivity]);
    destruct (Z.eqb (add_service env _ _) AVAHI_ERR_COLLISION);
    try discriminate;
    try (injection H as _ <-; split; [reflexivity | exists 0%nat; reflexivity]).
  unfold handleCollision, handleCollisionWith in H.
  destruct (registerService env fuel _ _ _ _ _ _ _) as [[[|] s1]|] eqn:ER;
    try discriminate;
    apply IH in ER; try exact Hr; destruct ER as [Hd [k Hk]].
  - apply commitAndArm_descriptors in H. destruct H as [H1 H2].
    rewrite H1, H2. split; [exact Hd|]. exists (S k).
    cbn in Hk. rewrite Hk, Nat.iter_succ_r. reflexivity.
  - injection H as <- <-. split; [exact Hd|]. exists (S k).
    cbn in Hk. rewrite Hk, Nat.iter_succ_r. reflexivity.
Qed.

(** C10: with a ready client every [registerService], whatever it
    returns, leaves the call's descriptor in both the [m_*] members (used by
    the refresh timer) and the accessors (used by collision handling); only
    a collision retry replaces the name, by one mangling per retry. *)
Theorem registerService_caches_descriptor (env : Env) (fuel : nat)
        (n : string) (a : QHostAddress) (p : Z) (t : string)
        (txt : TxtRecords) (silent : bool) (s : Service) (b : bool)
        (s' : Service) :
  client_present env && client_running env = true ->
  registerService env fuel n a p t txt silent s = Some (b, s') ->
  d_descriptor s' = m_descriptor s' /\
  (exists k, m_descriptor s' =
             (Nat.iter k (alternative_service_name env) n, a, p, t, txt)) /\
  (~ (group_is_empty (current_group s) = true /\
      add_service env (current_group s)
        (mkEntry (resolveIfIndex (allInterfaces env) a) (avahi_protocol a)
                 n t p txt) = AVAHI_ERR_COLLISION) ->
   m_descriptor s' = (n, a, p, t, txt)).
Proof.
  intros Hr H.
  destruct (registerService_descriptor_iter env fuel n a p t txt silent s b s'
              Hr H) as [Hd Hk].
  split; [exact Hd|]. split; [exact Hk|].
  intros Hnc. clear Hd Hk.
  rewrite registerService_ready in H by exact Hr. cbv zeta in H.
  destruct (group_is_empty (current_group s)) eqn:He;
    [|injection H as _ <-; reflexivity].
  destruct (Z.eqb (add_service env _ _) 0) eqn:E0; simpl in H.
  - apply commitAndArm_descriptors in H. destruct H as [H1 _].
    rewrite H1. reflexivity.
  - destruct (Z.eqb (add_service env _ _) AVAHI_ERR_COLLISION) eqn:Ec.
    + apply Z.eqb_eq in Ec. exfalso. apply Hnc. split; [reflexivity | exact Ec].
    + injection H as _ <-. reflexivity.
Qed.

Lemma registerService_caches_descriptor_witness :
  client_present (env_ok []) && client_running (env_ok []) = true /\
  registerService (env_ok []) 0 "printer2" any_ipv4 9100 "_ipp._tcp" office
                  false printer_state = Some (false, printer2_state) /\
  d_descriptor printer2_state = m_descriptor printer2_state.
Proof.
  assert (E : registerService (env_ok []) 0 "printer2" any_ipv4 9100
                "_ipp._tcp" office false printer_state
              = Some (false, printer2_state)) by (vm_compute; reflexivity).
  split; [reflexivity|]. split; [exact E|].
  exact (proj1 (registerService_caches_descriptor (env_ok []) _ _ _ _ _ _ _ _
                  _ _ eq_refl E)).
Defined.

Lemma resetService_accessors silent s :
  name (resetService silent s) = name s /\
  hostAddress (resetService silent s) = hostAddress s /\
  port (resetService silent s) = port s /\
  serviceType (resetService silent s) = serviceType s /\
  txtRecords (resetService silent s) = txtRecords s.
Proof. unfold resetService; destruct (d_group s); repeat split. Qed.

(** C4 (as the code behaves): collision handling re-registers with the TXT
    data of the [txtRecords()] accessor, which an accepted [updateTxtRecord]
    leaves stale.  After registering the printer with [office] and updating
    its TXT data to [home] (the published entry and [m_txtRecords] now hold
    [home]), a Collision callback resets the service and re-registers it
    under the alternative name "printer #2" with [office]. *)
Theorem handleCollision_stale_txtRecords :
  updateTxtRecord (env_ok []) home printer_state = (true, printer_updated) /\
  m_txtRecords printer_updated = home /\
  d_group printer_updated =
    Some (mkGroup [mkEntry AVAHI_IF_UNSPEC AVAHI_PROTO_INET "printer"
                           "_ipp._tcp" 9100 home] true) /\
  txtRecords printer_updated = office /\
  exists s3,
    onStateChanged (env_ok []) 0 QtAvahiServiceStateCollision printer_updated
      = Some s3 /\
    d_group s3 =
      Some (mkGroup [mkEntry AVAHI_IF_UNSPEC AVAHI_PROTO_INET "printer #2"
                             "_ipp._tcp" 9100 office] true) /\
    d_serviceList s3 = Some office.
Proof.
  split; [vm_compute; reflexivity|].
  split; [vm_compute; reflexivity|].
  split; [vm_compute; reflexivity|].
  split; [vm_compute; reflexivity|].
  eexists. split; [vm_compute; reflexivity|].
  split; vm_compute; reflexivity.
Qed.

(** ** The refresh timer *)

Lemma commitAndArm_timer env s b s' :
  commitAndArm env s = Some (b, s') ->
  t_interval (m_reregisterTimer s') = t_interval (m_reregisterTimer s) /\
  t_singleShot (m_reregisterTimer s') = t_singleShot (m_reregisterTimer s) /\
  (d_group s <> None -> d_group s' <> None) /\
  (b = true -> t_remaining (m_reregisterTimer s') =
               Some (t_interval (m_reregisterTimer s'))).
Proof.
  unfold commitAndArm; destruct (Z.eqb _ 0); simpl; intros H;
    injection H as <- <-; simpl; repeat split; try discriminate; auto.
Qed.

Lemma resetService_timer silent s :
  t_interval (m_reregisterTimer (resetService silent s)) =
    t_interval (m_reregisterTimer s) /\
  t_singleShot (m_reregisterTimer (resetService silent s)) =
    t_singleShot (m_reregisterTimer s).
Proof. unfold resetService; destruct (d_group s); split; reflexivity. Qed.

Lemma registerService_timer_config env fuel :
  forall n a p t txt silent s b s',
    registerService env fuel n a p t txt silent s = Some (b, s') ->
    t_interval (m_reregisterTimer s') = t_interval (m_reregisterTimer s) /\
    t_singleShot (m_reregisterTimer s') = t_singleShot (m_reregisterTimer s).
Proof.
  induction fuel as [|fuel IH]; intros n a p t txt silent s b s' H;
    (destruct (client_present env && client_running env) eqn:Hr;
     [| rewrite registerService_not_ready in H by exact Hr;
        injection H as _ <-; split; reflexivity]);
    rewrite registerService_ready in H by exact Hr; cbv zeta in H;
    destruct (group_is_empty (current_group s));
    try (injection H as _ <-; split; reflexivity);
    destruct (Z.eqb (add_service env _ _) 0); simpl in H;
    try (apply commitAndArm_timer in H; destruct H as (H1 & H2 & _);
         rewrite H1, H2; split; reflexivity);
    destruct (Z.eqb (add_service env _ _) AVAHI_ERR_COLLISION);
    try discriminate;
    try (injection H as _ <-; split; reflexivity).
  unfold handleCollision, handleCollisionWith in H.
  destruct (registerService env fuel _ _ _ _ _ _ _) as [[[|] s1]|] eqn:ER;
    try discriminate; apply IH in ER; destruct ER as [E1 E2];
    rewrite (proj1 (resetService_timer _ _)) in E1;
    rewrite (proj2 (resetService_timer _ _)) in E2.
  - apply commitAndArm_timer in H. destruct H as (H1 & H2 & _).
    rewrite H1, H2, E1, E2. split; reflexivity.
  - injection H as _ <-. rewrite E1, E2. split; reflexivity.
Qed.

Lemma registerService_ready_group env fuel :
  forall n a p t txt silent s b s',
    client_present env && client_running env = true ->
    registerService env fuel n a p t txt silent s = Some (b, s') ->
    d_group s' <> None.
Proof.
  induction fuel as [|fuel IH]; intros n a p t txt silent s b s' Hr H;
    rewrite registerService_ready in H by exact Hr; cbv zeta in H;
    destruct (group_is_empty (current_group s));
    try (injection H as _ <-; discriminate);
    destruct (Z.eqb (add_service env _ _) 0); simpl in H;
    try (apply commitAndArm_timer in H; destruct H as (_ & _ & H & _);
         apply H; discriminate);
    destruct (Z.eqb (add_service env _ _) AVAHI_ERR_COLLISION);
    try discriminate;
    try (injection H as _ <-; discriminate).
  unfold handleCollision, handleCollisionWith in H.
  destruct (registerService env fuel _ _ _ _ _ _ _) as [[[|] s1]|] eqn:ER;
    try discriminate; apply IH in ER; try exact Hr.
  - apply commitAndArm_timer in H. destruct H as (_ & _ & H & _). auto.
  - injection H as _ <-. exact ER.
Qed.

Lemma registerService_true_timer env fuel n a p t txt silent s s' :
  registerService env fuel n a p t txt silent s = Some (true, s') ->
  t_remaining (m_reregisterTimer s') = Some (t_interval (m_reregisterTimer s')).
Proof.
  intros H.
  destruct (client_present env && client_running env) eqn:Hr;
    [| rewrite registerService_not_ready in H by exact Hr;
       discriminate].
  rewrite registerService_ready in H by exact Hr; cbv zeta in H.
  destruct (group_is_empty (current_group s)); [|discriminate].
  destruct (Z.eqb (add_service env _ _) 0); simpl in H.
  - apply commitAndArm_timer in H. apply H. reflexivity.
  - destruct (Z.eqb (add_service env _ _) AVAHI_ERR_COLLISION); [|discriminate].
    destruct fuel as [|fuel]; [discriminate|].
    destruct (handleCollision env fuel _) as [[[|] s1]|]; try discriminate.
    apply commitAndArm_timer in H. apply H. reflexivity.
Qed.

Lemma timer_inv_registerService env fuel n a p t txt silent s b s' :
  timer_inv s ->
  registerService env fuel n a p t txt silent s = Some (b, s') ->
  timer_inv s'.
Proof.
  intros (Ha & Hi & Hs) H.
  destruct (registerService_timer_config env fuel _ _ _ _ _ _ _ _ _ H) as [E1 E2].
  destruct (client_present env && client_running env) eqn:Hr.
  - apply registerService_ready_group in H; [|exact Hr].
    split; [intros _; exact H|]. rewrite E1, E2. split; assumption.
  - rewrite registerService_not_ready in H by exact Hr.
    injection H as _ <-. split; [exact Ha | split; assumption].
Qed.

Lemma timer_inv_resetService silent s :
  timer_inv s -> timer_inv (resetService silent s).
Proof.
  intros (Ha & Hi & Hs). unfold resetService.
  destruct (d_group s) eqn:Eg;
    [|split; [rewrite Eg; exact Ha | split; assumption]].
  split; [discriminate|]. simpl. split; assumption.
Qed.

Lemma timer_inv_set_state st s : timer_inv s -> timer_inv (set_state st s).
Proof. intros H. exact H. Qed.

Lemma timer_inv_step s s' : timer_inv s -> step s s' -> timer_inv s'.
Proof.
  intros Hinv Hstep. destruct Hstep as
    [env fuel n a p t txt silent s b s' H | silent s
    | env txt s b s' H | env fuel st s s' H | env fuel s s' Hact H].
  - exact (timer_inv_registerService _ _ _ _ _ _ _ _ _ _ _ Hinv H).
  - exact (timer_inv_resetService _ _ Hinv).
  - destruct Hinv as (Ha & Hi & Hs). unfold updateTxtRecord in H.
    destruct (d_group s) as [g|] eqn:Eg;
      [| injection H as _ <-; split; [rewrite Eg; exact Ha | split; assumption]].
    destruct (Z.eqb (update_service_txt env _ _ _ _ _ _) 0); simpl in H;
      injection H as _ <-; unfold timer_inv; simpl; rewrite ?Eg;
      (split; [intros _; discriminate | split; assumption]).
  - unfold onStateChanged in H.
    destruct (state_eqb (m_state s) st); [injection H as <-; exact Hinv|].
    destruct st; try (injection H as <-; exact Hinv).
    destruct (handleCollision env fuel _) as [[b s1]|] eqn:Eh; [|discriminate].
    injection H as <-. unfold handleCollision, handleCollisionWith in Eh.
    exact (timer_inv_registerService _ _ _ _ _ _ _ _ _ _ _
             (timer_inv_resetService _ _ (timer_inv_set_state _ _ Hinv)) Eh).
  - unfold reregisterTimeout in H.
    destruct (registerService env fuel _ _ _ _ _ _ _) as [[b s1]|] eqn:Er;
      [|discriminate].
    injection H as <-.
    refine (timer_inv_registerService _ _ _ _ _ _ _ _ _ _ _
              (timer_inv_resetService _ _ _) Er).
    destruct Hinv as (Ha & Hi & Hs).
    split; [discriminate | split; assumption].
Qed.

Lemma reachable_timer_inv s : reachable s -> timer_inv s.
Proof.
  induction 1 as [|s s' _ IH Hstep].
  - split; [discriminate | split; reflexivity].
  - exact (timer_inv_step _ _ IH Hstep).
Qed.

Lemma registered_printer_eq :
  registerService (env_ok []) 0 "printer" any_ipv4 9100 "_ipp._tcp" office
                  false initial = Some (true, printer_state).
Proof. vm_compute. reflexivity. Qed.

Lemma reachable_printer_state : reachable printer_state.
Proof.
  apply (reachable_step initial); [constructor|].
  exact (step_register _ _ _ _ _ _ _ _ _ _ _ registered_printer_eq).
Qed.

(** C6 (counterexample): right after the first successful [registerService]
    the refresh timer runs while the cached state is still Uncommitted. *)
Lemma timer_running_outside_established :
  ~ (forall s, reachable s ->
       timer_isActive (m_reregisterTimer s) = true ->
       m_state s = QtAvahiServiceStateEstablished).
Proof.
  intros H.
  specialize (H printer_state reachable_printer_state
                ltac:(vm_compute; reflexivity)).
  vm_compute in H. discriminate.
Qed.

(** C6 (as amended): the refresh timer is not tied to the cached state.
    A [registerService] that returns true leaves it running and does not
    change the cached state, whatever that state is; in every reachable
    configuration where the timer runs, a group exists. *)
Theorem refresh_timer_not_tied_to_state :
  (forall env fuel n a p t txt silent s s',
     registerService env fuel n a p t txt silent s = Some (true, s') ->
     timer_isActive (m_reregisterTimer s') = true /\ m_state s' = m_state s) /\
  (forall s, reachable s ->
     timer_isActive (m_reregisterTimer s) = true -> d_group s <> None).
Proof.
  split.
  - intros env fuel n a p t txt silent s s' H. split.
    + unfold timer_isActive. rewrite (registerService_true_timer _ _ _ _ _ _ _ _ _ _ H).
      reflexivity.
    + exact (registerService_m_state _ _ _ _ _ _ _ _ _ _ _ H).
  - intros s Hr. exact (proj1 (reachable_timer_inv s Hr)).
Qed.

Lemma refresh_timer_not_tied_to_state_witness :
  timer_isActive (m_reregisterTimer printer_state) = true /\
  m_state printer_state = QtAvahiServiceStateUncommitted /\
  d_group printer_state <> None.
Proof.
  destruct (proj1 refresh_timer_not_tied_to_state _ _ _ _ _ _ _ _ _ _
              registered_printer_eq) as [H1 H2].
  split; [exact H1|]. split; [exact H2|].
  exact (proj2 refresh_timer_not_tied_to_state printer_state
           reachable_printer_state H1).
Defined.

(** C7: in every reachable configuration, a [registerService] that returns
    true leaves the refresh timer freshly started: single-shot, 60000 ms,
    with the whole interval ahead (a pending firing is cancelled).  When it
    fires, the service is reset silently and registered again, silently,
    with the cached [m_*] descriptor. *)
Theorem refresh_timer_restart_and_timeout :
  (forall env fuel n a p t txt silent s s',
     reachable s ->
     registerService env fuel n a p t txt silent s = Some (true, s') ->
     m_reregisterTimer s' = mkTimer 60000 true (Some 60000)) /\
  (forall env fuel s,
     reregisterTimeout env fuel s =
     match registerService env fuel (m_name s) (m_hostAddress s) (m_port s)
             (m_serviceType s) (m_txtRecords s) true
             (resetService true (set_timer (timer_stop (m_reregisterTimer s)) s))
     with
     | Some (_, s') => Some s'
     | None => None
     end).
Proof.
  split.
  - intros env fuel n a p t txt silent s s' Hr H.
    destruct (reachable_timer_inv s Hr) as (_ & Hi & Hs).
    destruct (registerService_timer_config _ _ _ _ _ _ _ _ _ _ _ H) as [E1 E2].
    pose proof (registerService_true_timer _ _ _ _ _ _ _ _ _ _ H) as E3.
    destruct (m_reregisterTimer s') as [i ss r]; simpl in *.
    rewrite E3, E1, Hi, E2, Hs. reflexivity.
  - intros env fuel s. unfold reregisterTimeout, resetService. simpl.
    destruct (d_group s); reflexivity.
Qed.

Lemma refresh_timer_restart_and_timeout_witness :
  m_reregisterTimer printer_state = mkTimer 60000 true (Some 60000).
Proof.
  exact (proj1 refresh_timer_restart_and_timeout _ _ _ _ _ _ _ _ _ _
           reachable_initial registered_printer_eq).
Defined.

(** ** Choosing the outgoing interface, in general *)

Lemma scanAddressEntries_existsb a index entries ifIndex :
  scanAddressEntries a index entries ifIndex =
  if existsb (entry_matches a) entries then index else ifIndex.
Proof.
  induction entries as [|e rest IH]; simpl; [reflexivity|].
  unfold entry_matches at 1. destruct (isInSubnet _ _ _); simpl; [reflexivity | exact IH].
Qed.

Lemma resolveIfIndex_fold interfaces a :
  host_address_eqb a any_ipv4 = false ->
  resolveIfIndex interfaces a =
  fold_left (fun ifIndex i => if interface_matches a i then if_index i else ifIndex)
            interfaces AVAHI_IF_UNSPEC.
Proof.
  intros Hw. unfold resolveIfIndex. rewrite Hw. simpl.
  generalize AVAHI_IF_UNSPEC.
  induction interfaces as [|i rest IH]; intros c; simpl; [reflexivity|].
  rewrite scanAddressEntries_existsb. apply IH.
Qed.

Lemma fold_no_match a l c :
  forallb (fun i => negb (interface_matches a i)) l = true ->
  fold_left (fun ifIndex i => if interface_matches a i then if_index i else ifIndex)
            l c = c.
Proof.
  revert c. induction l as [|i l IH]; intros c H; simpl in *; [reflexivity|].
  apply andb_prop in H as [H1 H2].
  destruct (interface_matches a i); [discriminate|]. apply IH, H2.
Qed.

Lemma resolveIfIndex_app_match (l1 l2 : list QNetworkInterface)
      (i : QNetworkInterface) (a : QHostAddress) :
  host_address_eqb a any_ipv4 = false ->
  interface_matches a i = true ->
  forallb (fun j => negb (interface_matches a j)) l2 = true ->
  resolveIfIndex (l1 ++ i :: l2) a = if_index i.
Proof.
  intros Hw Hi Hl2. rewrite resolveIfIndex_fold by exact Hw.
  rewrite fold_left_app. simpl. rewrite Hi. apply fold_no_match, Hl2.
Qed.

(** The interface selected for a bind address other than 0.0.0.0 is the
    LAST interface having an address entry whose subnet contains it. *)
Theorem resolveIfIndex_last_match (l1 l2 : list QNetworkInterface)
        (i : QNetworkInterface) (a : QHostAddress) :
  host_address_eqb a any_ipv4 = false ->
  interface_matches a i = true ->
  forallb (fun j => negb (interface_matches a j)) l2 = true ->
  resolveIfIndex (l1 ++ i :: l2) a = if_index i.
Proof. exact (resolveIfIndex_app_match l1 l2 i a). Qed.

(** On [lan24; lan16; vpn8], 192.168.1.10 lies in both LAN subnets: the
    earlier match (index 2) is overridden by the later one (index 3). *)
Lemma resolveIfIndex_last_match_witness :
  interface_matches (ipv4 192 168 1 10) lan24 = true /\
  resolveIfIndex [lan24; lan16; vpn8] (ipv4 192 168 1 10) = 3.
Proof.
  split; [vm_compute; reflexivity|].
  apply (resolveIfIndex_last_match [lan24] [vpn8] lan16 (ipv4 192 168 1 10));
    vm_compute; reflexivity.
Defined.

(** When no interface has an address entry containing the bind address,
    the interface is left unspecified. *)
Theorem resolveIfIndex_no_match (interfaces : list QNetworkInterface)
        (a : QHostAddress) :
  forallb (fun j => negb (interface_matches a j)) interfaces = true ->
  resolveIfIndex interfaces a = AVAHI_IF_UNSPEC.
Proof.
  intros H. destruct (host_address_eqb a any_ipv4) eqn:Hw.
  - unfold resolveIfIndex. rewrite Hw. reflexivity.
  - rewrite resolveIfIndex_fold by exact Hw. apply fold_no_match, H.
Qed.

Lemma resolveIfIndex_no_match_witness :
  resolveIfIndex two_interfaces (ipv4 10 0 0 1) = AVAHI_IF_UNSPEC.
Proof. apply resolveIfIndex_no_match. vm_compute. reflexivity. Defined.

(** When exactly one interface has an address entry containing the bind
    address (no overlapping subnets), the selected interface is that one,
    as the first-match reading says. *)
Theorem resolveIfIndex_unique_match (l1 l2 : list QNetworkInterface)
        (i : QNetworkInterface) (a : QHostAddress) :
  host_address_eqb a any_ipv4 = false ->
  forallb (fun j => negb (interface_matches a j)) l1 = true ->
  interface_matches a i = true ->
  forallb (fun j => negb (interface_matches a j)) l2 = true ->
  resolveIfIndex (l1 ++ i :: l2) a = if_index i /\
  spec_first_matching_interface (l1 ++ i :: l2) a = if_index i.
Proof.
  intros Hw H1 Hi H2. split; [apply resolveIfIndex_app_match; assumption|].
  unfold spec_first_matching_interface. rewrite Hw.
  assert (E : List.find (interface_matches a) (l1 ++ i :: l2) = Some i).
  { clear H2. induction l1 as [|j l1 IH]; simpl in *; [rewrite Hi; reflexivity|].
    apply andb_prop in H1 as [Hj H1].
    destruct (interface_matches a j); [discriminate | apply IH, H1]. }
  cbv beta zeta delta [interface_matches entry_matches] in *.
  rewrite E. reflexivity.
Qed.

(** On [lan24; wan12; vpn8], 172.16.0.5 lies in the subnet of the middle
    interface only. *)
Lemma resolveIfIndex_unique_match_witness :
  resolveIfIndex [lan24; wan12; vpn8] (ipv4 172 16 0 5) = 5 /\
  spec_first_matching_interface [lan24; wan12; vpn8] (ipv4 172 16 0 5) = 5.
Proof.
  apply (resolveIfIndex_unique_match [lan24] [vpn8] wan12 (ipv4 172 16 0 5));
    vm_compute; reflexivity.
Defined.

Lemma ipv4_netmask_shiftr (x p : Z) :
  0 <= x < 2 ^ 32 -> 0 <= p <= 32 ->
  Z.shiftr (Z.land x (ipv4_netmask p)) (32 - p) = Z.shiftr x (32 - p).
Proof.
  intros Hx Hp. apply Z.bits_inj'. intros n Hn.
  rewrite !Z.shiftr_spec by lia. rewrite Z.land_spec. unfold ipv4_netmask.
  rewrite Z.shiftl_spec by lia.
  replace (n + (32 - p) - (32 - p)) with n by lia.
  rewrite Z.testbit_ones_nonneg by lia.
  destruct (Z.ltb_spec n p); [apply andb_true_r|].
  rewrite andb_false_r. symmetry.
  rewrite <- (Z.mod_small x (2 ^ 32)) by lia.
  apply Z.mod_pow2_bits_high. lia.
Qed.

Lemma ipv4_prefixLength_netmask (p : Z) :
  0 <= p <= 32 ->
  exists p', ipv4_prefixLength (ipv4_netmask p) = Some p' /\
             ipv4_netmask p' = ipv4_netmask p /\ 0 <= p' <= 32.
Proof.
  intros Hp. unfold ipv4_prefixLength.
  destruct (List.find _ _) as [p'|] eqn:E.
  - apply List.find_some in E as [Hin Heq].
    apply in_map_iff in Hin as (k & <- & Hk). apply in_seq in Hk.
    exists (Z.of_nat k). split; [reflexivity|]. split; [apply Z.eqb_eq, Heq | lia].
  - assert (Hin : In (Z.of_nat (Z.to_nat p)) (map Z.of_nat (seq 0 33)))
      by (apply in_map; apply in_seq; lia).
    pose proof (List.find_none _ _ E _ Hin) as F. simpl in F.
    rewrite Z2Nat.id, Z.eqb_refl in F by lia. discriminate.
Qed.

Lemma fold_match_cases a l c :
  (fold_left (fun ifIndex i => if interface_matches a i then if_index i else ifIndex)
             l c = c /\
   forallb (fun i => negb (interface_matches a i)) l = true) \/
  (exists j, In j l /\ interface_matches a j = true /\
   fold_left (fun ifIndex i => if interface_matches a i then if_index i else ifIndex)
             l c = if_index j).
Proof.
  revert c. induction l as [|k l IH]; intros c; simpl; [left; split; reflexivity|].
  destruct (IH (if interface_matches a k then if_index k else c))
    as [[E F] | (j & Hj & Mj & E)].
  - rewrite E, F. destruct (interface_matches a k) eqn:Mk.
    + right. exists k. split; [left; reflexivity | split; [exact Mk | reflexivity]].
    + left. split; reflexivity.
  - right. exists j. split; [right; exact Hj | split; assumption].
Qed.

(** Binding to an interface's own (non-zero) IPv4 address, whose netmask is
    contiguous, always selects an interface of the list having an address
    entry that contains it: never the unspecified interface by default. *)
Theorem resolveIfIndex_own_address (interfaces : list QNetworkInterface)
        (i : QNetworkInterface) (x p : Z) :
  In i interfaces ->
  In (mkAddressEntry (HAIPv4 x) (HAIPv4 (ipv4_netmask p)))
     (if_addressEntries i) ->
  0 < x < 2 ^ 32 -> 0 <= p <= 32 ->
  exists j, In j interfaces /\ interface_matches (HAIPv4 x) j = true /\
            resolveIfIndex interfaces (HAIPv4 x) = if_index j.
Proof.
  intros Hi He Hx Hp.
  assert (Mi : interface_matches (HAIPv4 x) i = true).
  { unfold interface_matches. apply existsb_exists.
    eexists; split; [exact He|].
    unfold entry_matches, parseSubnet; simpl.
    destruct (ipv4_prefixLength_netmask p Hp) as (p' & -> & Hm & Hp').
    cbn [fst snd isInSubnet].
    rewrite ipv4_netmask_shiftr by lia.
    rewrite Z.eqb_refl. destruct (Z.leb_spec 0 p'); [|lia].
    destruct (Z.leb_spec p' 32); [reflexivity | lia]. }
  rewrite resolveIfIndex_fold
    by (simpl; apply Z.eqb_neq; lia).
  destruct (fold_match_cases (HAIPv4 x) interfaces AVAHI_IF_UNSPEC)
    as [[_ F] | J]; [|exact J].
  exfalso. apply forallb_forall with (x := i) in F; [|exact Hi].
  rewrite Mi in F. discriminate.
Qed.

Lemma resolveIfIndex_own_address_witness :
  exists j, In j two_interfaces /\
            interface_matches (ipv4 192 168 1 1) j = true /\
            resolveIfIndex two_interfaces (ipv4 192 168 1 1) = if_index j.
Proof.
  apply (resolveIfIndex_own_address two_interfaces
           (mkInterface 2 [mkAddressEntry (ipv4 192 168 1 1) (ipv4 255 255 255 0)])
           (192 * 16777216 + 168 * 65536 + 1 * 256 + 1) 24).
  - left. reflexivity.
  - left. unfold ipv4, ipv4_netmask. vm_compute. reflexivity.
  - lia.
  - lia.
Defined.

(** ** Invariants of reachable configurations *)

Section StepInvariant.
Variable P : Service -> Prop.
Hypothesis P_register : forall env fuel n a p t txt silent s b s',
  P s -> registerService env fuel n a p t txt silent s = Some (b, s') -> P s'.
Hypothesis P_reset : forall silent s, P s -> P (resetService silent s).
Hypothesis P_update : forall env txt s b s',
  P s -> updateTxtRecord env txt s = (b, s') -> P s'.
Hypothesis P_set_state : forall st s, P s -> P (set_state st s).
Hypothesis P_timer_stop : forall s,
  P s -> P (set_timer (timer_stop (m_reregisterTimer s)) s).

Lemma step_preserves s s' : P s -> step s s' -> P s'.
Proof.
  intros HP Hstep. destruct Hstep as
    [env fuel n a p t txt silent s b s' H | silent s
    | env txt s b s' H | env fuel st s s' H | env fuel s s' Hact H].
  - exact (P_register _ _ _ _ _ _ _ _ _ _ _ HP H).
  - exact (P_reset _ _ HP).
  - exact (P_update _ _ _ _ _ HP H).
  - unfold onStateChanged in H.
    destruct (state_eqb (m_state s) st); [injection H as <-; exact HP|].
    destruct st; try (injection H as <-; apply P_set_state; exact HP).
    destruct (handleCollision env fuel _) as [[b s1]|] eqn:Eh; [|discriminate].
    injection H as <-. unfold handleCollision, handleCollisionWith in Eh.
    exact (P_register _ _ _ _ _ _ _ _ _ _ _
             (P_reset _ _ (P_set_state _ _ HP)) Eh).
  - unfold reregisterTimeout in H.
    destruct (registerService env fuel _ _ _ _ _ _ _) as [[b s1]|] eqn:Er;
      [|discriminate].
    injection H as <-.
    exact (P_register _ _ _ _ _ _ _ _ _ _ _
             (P_reset _ _ (P_timer_stop _ HP)) Er).
Qed.

Lemma reachable_preserves s : P initial -> reachable s -> P s.
Proof.
  intros H0 Hr. induction Hr as [|s s' _ IH Hstep]; [exact H0|].
  exact (step_preserves s s' IH Hstep).
Qed.
End StepInvariant.

Lemma resetService_frame silent s :
  d_descriptor (resetService silent s) = d_descriptor s /\
  m_descriptor (resetService silent s) = m_descriptor s /\
  m_state (resetService silent s) = m_state s /\
  (d_group (resetService silent s) = None <-> d_group s = None) /\
  (d_serviceList (resetService silent s) <> None -> d_serviceList s <> None).
Proof.
  unfold resetService, d_descriptor, m_descriptor, name, hostAddress, port,
    serviceType, txtRecords.
  destruct (d_group s) eqn:Eg; simpl; repeat split; intuition congruence.
Qed.

Lemma updateTxtRecord_frame_basic env txt s b s' :
  updateTxtRecord env txt s = (b, s') ->
  (d_group s = None -> b = false /\ s' = s) /\
  (d_group s <> None ->
     d_group s' <> None /\ d_descriptor s' = d_descriptor s /\
     m_name s' = m_name s /\ m_hostAddress s' = m_hostAddress s /\
     m_port s' = m_port s /\ m_serviceType s' = m_serviceType s /\
     m_txtRecords s' = txt /\
     m_reregisterTimer s' = m_reregisterTimer s /\ m_state s' = m_state s /\
     isValid s' = b).
Proof.
  unfold updateTxtRecord. intros H.
  destruct (d_group s) as [g|] eqn:Eg.
  - split; [discriminate|]. intros _.
    remember (update_service_txt _ _ _ _ _ _ _) as err eqn:Eerr in H.
    unfold d_descriptor, name, hostAddress, port, serviceType, txtRecords,
      isValid.
    destruct (Z.eqb err 0) eqn:E0; simpl in H; injection H as <- <-; simpl;
      rewrite ?Eg, ?E0; repeat split; try discriminate; reflexivity.
  - injection H as <- <-. split; [intros _; split; reflexivity | congruence].
Qed.

(** The TXT list is only held while a group exists, and the refresh
    descriptor agrees with the accessors on name, address, port and type,
    in every reachable configuration. *)
Lemma reachable_service_inv s : reachable s -> service_inv s.
Proof.
  apply reachable_preserves.
  - intros env fuel n a p t txt silent s0 b s' Hinv H.
    destruct (client_present env && client_running env) eqn:Hr.
    + pose proof (registerService_ready_group _ _ _ _ _ _ _ _ _ _ _ Hr H) as Hg.
      destruct (registerService_descriptor_iter _ _ _ _ _ _ _ _ _ _ _ Hr H)
        as [Hd _].
      unfold d_descriptor, m_descriptor in Hd.
      injection Hd as H1 H2 H3 H4 H5.
      split; [intros _; exact Hg|]. repeat split; symmetry; assumption.
    + rewrite registerService_not_ready in H by exact Hr.
      injection H as _ <-. exact Hinv.
  - intros silent s0 (Ha & H1 & H2 & H3 & H4).
    destruct (resetService_frame silent s0) as (Ed & Em & _ & Eg & El).
    unfold d_descriptor, m_descriptor in Ed, Em.
    injection Ed as D1 D2 D3 D4 D5. injection Em as M1 M2 M3 M4 M5.
    unfold name, hostAddress, port, serviceType in *.
    split; [intros Hl; intros Hn; apply Eg in Hn; apply (Ha (El Hl) Hn)|].
    rewrite D1, D2, D3, D4, M1, M2, M3, M4. repeat split; assumption.
  - intros env txt s0 b s' Hinv H.
    destruct (updateTxtRecord_frame_basic env txt s0 b s' H) as [HN HS].
    destruct (d_group s0) eqn:Eg.
    + destruct (HS ltac:(discriminate)) as (Hg & Hd & N1 & N2 & N3 & N4 & _).
      destruct Hinv as (_ & I1 & I2 & I3 & I4).
      unfold d_descriptor in Hd. injection Hd as D1 D2 D3 D4 _.
      unfold name, hostAddress, port, serviceType in *.
      split; [intros _; exact Hg|].
      rewrite N1, N2, N3, N4, D1, D2, D3, D4. repeat split; assumption.
    + destruct (HN eq_refl) as [_ ->]. exact Hinv.
  - intros st s0 H. exact H.
  - intros s0 H. exact H.
  - split; [intros H; exfalso; apply H; reflexivity | repeat split].
Qed.

(** X: every handle a reachable service holds (the TXT list and the entry
    group) is handed back to avahi by the destructor. *)
Theorem destructor_releases_handles (s : Service) :
  reachable s ->
  (d_serviceList s <> None -> In ReleasedServiceList (destructor s)) /\
  (d_group s <> None -> In ReleasedGroup (destructor s)).
Proof.
  intros Hr. destruct (reachable_service_inv s Hr) as (Ha & _).
  unfold destructor. split.
  - intros Hl. specialize (Ha Hl).
    destruct (d_group s); [|congruence].
    destruct (d_serviceList s); [left; reflexivity | congruence].
  - intros Hg. destruct (d_group s); [|congruence].
    apply in_or_app. right. left. reflexivity.
Qed.

Lemma destructor_releases_handles_witness :
  In ReleasedServiceList (destructor printer_state) /\
  In ReleasedGroup (destructor printer_state).
Proof.
  destruct (destructor_releases_handles printer_state reachable_printer_state)
    as [H1 H2].
  split; [apply H1 | apply H2]; vm_compute; discriminate.
Defined.

(** X: once a group exists it is never dropped: no operation, callback or
    timer firing takes a service back to having no group. *)
Theorem step_keeps_group (s s' : Service) :
  step s s' -> d_group s <> None -> d_group s' <> None.
Proof.
  intros Hstep Hg.
  apply (step_preserves (fun s => d_group s <> None)) with (s := s); auto.
  - intros env fuel n a p t txt silent s0 b s1 H0 H.
    destruct (client_present env && client_running env) eqn:Hr.
    + exact (registerService_ready_group _ _ _ _ _ _ _ _ _ _ _ Hr H).
    + rewrite registerService_not_ready in H by exact Hr.
      injection H as _ <-. exact H0.
  - intros silent s0 H0 Hn. apply (proj1 (proj2 (proj2 (proj2 (resetService_frame silent s0))))) in Hn.
    exact (H0 Hn).
  - intros env txt s0 b s1 H0 H.
    exact (proj1 (proj2 (updateTxtRecord_frame_basic env txt s0 b s1 H) H0)).
Qed.

Lemma step_keeps_group_witness :
  d_group printer_state <> None /\
  d_group (resetService false printer_state) <> None.
Proof.
  assert (H : d_group printer_state <> None) by (vm_compute; discriminate).
  split; [exact H|].
  apply (step_keeps_group printer_state); [apply step_reset | exact H].
Defined.

Lemma commitAndArm_true env s s' :
  commitAndArm env s = Some (true, s') ->
  d_error s' = 0 /\ d_group s' = Some (mkGroup (g_entries (current_group s)) true) /\
  d_serviceList s' = d_serviceList s /\ m_state s' = m_state s /\
  timer_isActive (m_reregisterTimer s') = true.
Proof.
  unfold commitAndArm. destruct (Z.eqb (group_commit env _) 0) eqn:E; simpl;
    intros H; [|discriminate].
  injection H as <-. simpl. apply Z.eqb_eq in E. repeat split; assumption.
Qed.

Lemma registerService_true_group env fuel :
  forall n a p t txt silent s s',
    registerService env fuel n a p t txt silent s = Some (true, s') ->
    d_error s' = 0 /\
    exists es, d_group s' = Some (mkGroup es true) /\ es <> [].
Proof.
  induction fuel as [|fuel IH]; intros n a p t txt silent s s' H;
    (destruct (client_present env && client_running env) eqn:Hr;
     [| rewrite registerService_not_ready in H by exact Hr; discriminate]);
    rewrite registerService_ready in H by exact Hr; cbv zeta in H;
    destruct (group_is_empty (current_group s)); try discriminate;
    destruct (Z.eqb (add_service env _ _) 0); simpl in H;
    try (apply commitAndArm_true in H; destruct H as (He & Hg & _);
         split; [exact He|]; eexists; split; [exact Hg|];
         simpl; intros Hx; apply app_eq_nil in Hx; destruct Hx; discriminate);
    destruct (Z.eqb (add_service env _ _) AVAHI_ERR_COLLISION);
    try discriminate.
  unfold handleCollision, handleCollisionWith in H.
  destruct (registerService env fuel _ _ _ _ _ _ _) as [[[|] s1]|] eqn:ER;
    try discriminate.
  apply IH in ER. destruct ER as (_ & es & Hg & Hne).
  apply commitAndArm_true in H. destruct H as (He & Hg' & _).
  split; [exact He|]. unfold current_group in Hg'. rewrite Hg in Hg'.
  exists es. split; assumption.
Qed.

(** X: after a successful registration the service is valid, and a
    further [registerService] without [resetService] is refused: it returns
    false and keeps the group, the TXT list, the error, the refresh timer
    and the cached state, while (with a running client) the accessors and
    the refresh descriptor take the new arguments all the same. *)
Theorem registerService_twice (env : Env) (fuel : nat) (n : string)
        (a : QHostAddress) (p : Z) (t : string) (txt : TxtRecords)
        (silent : bool) (s s1 : Service) (env' : Env) (fuel' : nat)
        (n' : string) (a' : QHostAddress) (p' : Z) (t' : string)
        (txt' : TxtRecords) (silent' : bool) :
  registerService env fuel n a p t txt silent s = Some (true, s1) ->
  isValid s1 = true /\
  exists s2,
    registerService env' fuel' n' a' p' t' txt' silent' s1 = Some (false, s2) /\
    d_group s2 = d_group s1 /\ d_serviceList s2 = d_serviceList s1 /\
    d_error s2 = d_error s1 /\ isValid s2 = true /\
    m_reregisterTimer s2 = m_reregisterTimer s1 /\ m_state s2 = m_state s1 /\
    (client_present env' && client_running env' = true ->
       d_descriptor s2 = (n', a', p', t', txt') /\
       m_descriptor s2 = (n', a', p', t', txt')).
Proof.
  intros H. destruct (registerService_true_group _ _ _ _ _ _ _ _ _ _ H)
    as (He & es & Hg & Hne).
  assert (Hv : isValid s1 = true)
    by (unfold isValid; rewrite Hg, He; reflexivity).
  split; [exact Hv|].
  destruct (client_present env' && client_running env') eqn:Hr.
  - rewrite registerService_ready by exact Hr. cbv zeta.
    unfold current_group at 1. rewrite Hg.
    destruct es as [|e es]; [congruence|]. simpl.
    eexists. split; [reflexivity|].
    unfold isValid, d_descriptor, m_descriptor, name, hostAddress, port,
      serviceType, txtRecords; simpl.
    unfold current_group; rewrite Hg, He.
    repeat (split || intros _); reflexivity.
  - rewrite registerService_not_ready by exact Hr.
    exists s1. repeat split; try reflexivity; try exact Hv; congruence.
Qed.

Lemma registerService_twice_witness :
  isValid printer_state = true /\
  exists s2,
    registerService (env_ok []) 0 "printer2" any_ipv4 9100 "_ipp._tcp" office
                    false printer_state = Some (false, s2) /\
    d_group s2 = d_group printer_state /\
    d_serviceList s2 = d_serviceList printer_state /\
    d_error s2 = d_error printer_state /\ isValid s2 = true /\
    m_reregisterTimer s2 = m_reregisterTimer printer_state /\
    m_state s2 = m_state printer_state /\
    (client_present (env_ok []) && client_running (env_ok []) = true ->
       d_descriptor s2 = ("printer2", any_ipv4, 9100, "_ipp._tcp", office) /\
       m_descriptor s2 = ("printer2", any_ipv4, 9100, "_ipp._tcp", office)).
Proof.
  apply (registerService_twice (env_ok []) 0 "printer" any_ipv4 9100
           "_ipp._tcp" office false initial).
  vm_compute. reflexivity.
Defined.

Lemma resetService_current_group silent s :
  current_group (resetService silent s) = empty_group.
Proof.
  unfold resetService, current_group.
  destruct (d_group s) eqn:Eg; simpl; [reflexivity | rewrite Eg; reflexivity].
Qed.

(** X: [resetService] followed by [registerService] re-publishes a
    service: whatever was registered before, a running client whose daemon
    accepts the single new entry and its commit leaves a valid service whose
    group holds exactly that entry, committed, with the refresh timer
    running and both descriptors set to the new arguments. *)
Theorem resetService_then_registerService (env : Env) (fuel : nat)
        (n : string) (a : QHostAddress) (p : Z) (t : string)
        (txt : TxtRecords) (silent silent' : bool) (s : Service) (e : Entry) :
  e = mkEntry (resolveIfIndex (allInterfaces env) a) (avahi_protocol a)
              n t p txt ->
  client_present env && client_running env = true ->
  add_service env empty_group e = 0 ->
  group_commit env (mkGroup [e] false) = 0 ->
  exists s',
    registerService env fuel n a p t txt silent (resetService silent' s)
      = Some (true, s') /\
    d_group s' = Some (mkGroup [e] true) /\ d_serviceList s' = Some txt /\
    isValid s' = true /\ timer_isActive (m_reregisterTimer s') = true /\
    d_descriptor s' = (n, a, p, t, txt) /\ m_descriptor s' = (n, a, p, t, txt).
Proof.
  intros He Hr Ha Hc.
  rewrite registerService_ready by exact Hr. cbv zeta.
  rewrite !resetService_current_group. rewrite <- He, Ha. simpl.
  unfold commitAndArm, current_group. simpl. rewrite Hc. simpl.
  eexists. split; [reflexivity|].
  repeat split; reflexivity.
Qed.

Lemma resetService_then_registerService_witness :
  exists s',
    registerService (env_ok []) 0 "printer2" any_ipv4 9100 "_ipp._tcp" home
                    false (resetService false printer_state) = Some (true, s') /\
    d_group s' = Some (mkGroup [mkEntry AVAHI_IF_UNSPEC AVAHI_PROTO_INET
                                        "printer2" "_ipp._tcp" 9100 home] true) /\
    d_serviceList s' = Some home /\ isValid s' = true /\
    timer_isActive (m_reregisterTimer s') = true /\
    d_descriptor s' = ("printer2", any_ipv4, 9100, "_ipp._tcp", home) /\
    m_descriptor s' = ("printer2", any_ipv4, 9100, "_ipp._tcp", home).
Proof.
  apply (resetService_then_registerService (env_ok []) 0 "printer2" any_ipv4
           9100 "_ipp._tcp" home false false printer_state);
    vm_compute; reflexivity.
Defined.

(** X: the collision path recurses without bound: when the daemon reports a
    collision for every entry, [registerService] on a service without
    published entries never returns, whatever the recursion depth allowed. *)
Theorem registerService_collision_forever (env : Env) (fuel : nat) :
  forall n a p t txt silent s,
    client_present env && client_running env = true ->
    (forall g e, add_service env g e = AVAHI_ERR_COLLISION) ->
    group_is_empty (current_group s) = true ->
    registerService env fuel n a p t txt silent s = None.
Proof.
  induction fuel as [|fuel IH]; intros n a p t txt silent s Hr Hcol He;
    rewrite registerService_ready by exact Hr; cbv zeta;
    rewrite He, Hcol; simpl; [reflexivity|].
  unfold handleCollision, handleCollisionWith.
  rewrite IH; [reflexivity | exact Hr | exact Hcol |].
  rewrite resetService_current_group. reflexivity.
Qed.

Lemma registerService_collision_forever_witness :
  registerService (env_collide []) 5 "printer" any_ipv4 9100 "_ipp._tcp"
                  office false initial = None.
Proof.
  apply registerService_collision_forever;
    [reflexivity | intros; reflexivity | reflexivity].
Defined.

(** X: when the refresh timer fires while the client is missing or not
    running, the service is withdrawn (its group emptied) and the timer is
    left stopped, so no further refresh is scheduled; the refresh
    descriptor is kept. *)
Theorem reregisterTimeout_client_down (env : Env) (fuel : nat) (s : Service) :
  client_present env && client_running env = false ->
  exists s',
    reregisterTimeout env fuel s = Some s' /\
    timer_isActive (m_reregisterTimer s') = false /\
    group_is_empty (current_group s') = true /\
    m_descriptor s' = m_descriptor s /\ m_state s' = m_state s.
Proof.
  intros Hr. unfold reregisterTimeout.
  rewrite registerService_not_ready by exact Hr.
  eexists. split; [reflexivity|].
  rewrite resetService_current_group.
  destruct (resetService_frame true
              (set_timer (timer_stop (m_reregisterTimer s)) s))
    as (_ & Hm & Hst & _).
  rewrite Hm, Hst. unfold resetService.
  destruct (d_group _); simpl; repeat split; reflexivity.
Qed.

Lemma reregisterTimeout_client_down_witness :
  exists s',
    reregisterTimeout (env_down []) 0 printer_state = Some s' /\
    timer_isActive (m_reregisterTimer s') = false /\
    group_is_empty (current_group s') = true /\
    m_descriptor s' = m_descriptor printer_state /\
    m_state s' = m_state printer_state.
Proof.
  apply reregisterTimeout_client_down. reflexivity.
Defined.

(** X: the cached service state is written only by the state-change slot:
    [registerService] (collision retries included), [resetService],
    [updateTxtRecord] and the refresh timeout all leave it unchanged. *)
Theorem state_written_only_by_onStateChanged :
  (forall env fuel n a p t txt silent s b s',
     registerService env fuel n a p t txt silent s = Some (b, s') ->
     m_state s' = m_state s) /\
  (forall silent s, m_state (resetService silent s) = m_state s) /\
  (forall env txt s b s',
     updateTxtRecord env txt s = (b, s') -> m_state s' = m_state s) /\
  (forall env fuel s s',
     reregisterTimeout env fuel s = Some s' -> m_state s' = m_state s).
Proof.
  split; [|split; [|split]].
  - exact registerService_m_state.
  - exact resetService_m_state.
  - intros env txt s b s' H. unfold updateTxtRecord in H.
    destruct (d_group s); [|injection H as _ <-; reflexivity].
    destruct (Z.eqb _ 0); simpl in H; injection H as _ <-; reflexivity.
  - intros env fuel s s' H. unfold reregisterTimeout in H.
    destruct (registerService _ _ _ _ _ _ _ _ _) as [[b s1]|] eqn:E;
      [|discriminate].
    injection H as <-. apply registerService_m_state in E.
    rewrite E, resetService_m_state. reflexivity.
Qed.

Lemma state_written_only_by_onStateChanged_witness :
  m_state printer_state = m_state initial /\
  m_state (resetService false printer_state) = m_state printer_state.
Proof.
  split.
  - apply (proj1 state_written_only_by_onStateChanged (env_ok []) 0%nat "printer"
             any_ipv4 9100 "_ipp._tcp" office false initial true).
    vm_compute. reflexivity.
  - apply (proj1 (proj2 state_written_only_by_onStateChanged)).
Defined.

(** X: a state-change notification delivered twice acts once: after the
    first delivery the cached state is the delivered one, and delivering
    the same state again, in any environment, changes nothing. *)
Theorem onStateChanged_redelivery (env env' : Env) (fuel fuel' : nat)
        (st : QtAvahiServiceState) (s s1 : Service) :
  onStateChanged env fuel st s = Some s1 ->
  m_state s1 = st /\ onStateChanged env' fuel' st s1 = Some s1.
Proof.
  intros H.
  assert (Hs : m_state s1 = st).
  { unfold onStateChanged in H.
    destruct (state_eqb (m_state s) st) eqn:E.
    - injection H as <-. apply state_eqb_true in E. exact E.
    - destruct st; try (injection H as <-; reflexivity).
      destruct (handleCollision env fuel _) as [[b s2]|] eqn:Eh;
        [|discriminate].
      injection H as <-. apply handleCollision_m_state in Eh.
      rewrite Eh. reflexivity. }
  split; [exact Hs|].
  unfold onStateChanged. rewrite Hs.
  replace (state_eqb st st) with true by (symmetry; apply state_eqb_true; reflexivity).
  reflexivity.
Qed.

Lemma onStateChanged_redelivery_witness :
  m_state printer_state = QtAvahiServiceStateUncommitted /\
  onStateChanged (env_ok []) 0 QtAvahiServiceStateEstablished
    (set_state QtAvahiServiceStateEstablished printer_state)
  = Some (set_state QtAvahiServiceStateEstablished printer_state).
Proof.
  split; [vm_compute; reflexivity|].
  apply (onStateChanged_redelivery (env_ok []) (env_ok []) 0 0
           QtAvahiServiceStateEstablished printer_state).
  vm_compute. reflexivity.
Defined.

(** X: [updateTxtRecord] changes the TXT data in place: without a group it
    fails and leaves the service as it is; with one it keeps the group
    handle, the number of entries and the commit flag (no re-commit), never
    touches the refresh timer or the cached state, stores the new TXT list
    and the new [m_txtRecords], and its result agrees with [isValid]. *)
Theorem updateTxtRecord_in_place (env : Env) (txt : TxtRecords)
        (s : Service) (b : bool) (s' : Service) :
  updateTxtRecord env txt s = (b, s') ->
  m_reregisterTimer s' = m_reregisterTimer s /\ m_state s' = m_state s /\
  isValid s' = b /\
  (d_group s = None -> b = false /\ s' = s) /\
  (forall g, d_group s = Some g ->
     exists g', d_group s' = Some g' /\
                length (g_entries g') = length (g_entries g) /\
                g_committed g' = g_committed g /\
                d_serviceList s' = Some txt /\ m_txtRecords s' = txt).
Proof.
  unfold updateTxtRecord. intros H.
  destruct (d_group s) as [g|] eqn:Eg.
  - remember (update_service_txt _ _ _ _ _ _ _) as err eqn:Eerr in H.
    unfold isValid.
    destruct (Z.eqb err 0) eqn:E0; simpl in H; injection H as <- <-; simpl;
      rewrite ?Eg, ?E0; (split; [reflexivity|]); (split; [reflexivity|]);
      (split; [reflexivity|]); (split; [discriminate|]);
      intros g0 Hg0; injection Hg0 as <-.
    + eexists. split; [reflexivity|]. simpl. rewrite length_map.
      repeat split; reflexivity.
    + eexists. split; [reflexivity|]. repeat split; reflexivity.
  - injection H as <- <-. unfold isValid. rewrite Eg.
    repeat split; try reflexivity. discriminate.
Qed.

Lemma updateTxtRecord_in_place_witness :
  exists g', d_group (snd (updateTxtRecord (env_ok []) home printer_state))
             = Some g' /\ g_committed g' = true /\ length (g_entries g') = 1%nat.
Proof.
  destruct (updateTxtRecord (env_ok []) home printer_state) as [b s'] eqn:E.
  destruct (updateTxtRecord_in_place _ _ _ _ _ E) as (_ & _ & _ & _ & Hg).
  destruct (Hg (mkGroup [mkEntry AVAHI_IF_UNSPEC AVAHI_PROTO_INET "printer"
                                 "_ipp._tcp" 9100 office] true))
    as (g' & H1 & H2 & H3 & _); [vm_compute; reflexivity|].
  exists g'. simpl. rewrite H1. split; [reflexivity|]. split; assumption.
Defined.

(** X: a resolved collision can still be reported as a failure: when the
    retry under the alternative name succeeds (its group committed and the
    refresh timer running) but the second commit of line 202 is refused,
    [registerService] returns false and [isValid] is false, although the
    service is published under the alternative name. *)
Theorem registerService_retry_commit_refused (env : Env) (fuel : nat)
        (n : string) (a : QHostAddress) (p : Z) (t : string)
        (txt : TxtRecords) (silent : bool) (s s1 : Service) :
  client_present env && client_running env = true ->
  group_is_empty (current_group s) = true ->
  add_service env (current_group s)
    (mkEntry (resolveIfIndex (allInterfaces env) a) (avahi_protocol a)
             n t p txt) = AVAHI_ERR_COLLISION ->
  handleCollision env fuel
    (set_error AVAHI_ERR_COLLISION
       (set_serviceList (Some txt)
          (set_group (Some (current_group s))
             (cacheDescriptor n a p t txt s)))) = Some (true, s1) ->
  group_commit env (current_group s1) <> 0 ->
  exists s',
    registerService env (S fuel) n a p t txt silent s = Some (false, s') /\
    isValid s' = false /\
    timer_isActive (m_reregisterTimer s') = true /\
    exists es, d_group s' = Some (mkGroup es true) /\ es <> [].
Proof.
  intros Hr He Ha Hh Hc.
  assert (Hreg : registerService env fuel (alternative_service_name env n)
                   a p t txt false
                   (resetService false
                      (set_error AVAHI_ERR_COLLISION
                         (set_serviceList (Some txt)
                            (set_group (Some (current_group s))
                               (cacheDescriptor n a p t txt s)))))
                 = Some (true, s1)) by exact Hh.
  destruct (registerService_true_group _ _ _ _ _ _ _ _ _ _ Hreg)
    as (_ & es & Hg & Hne).
  pose proof (registerService_true_timer _ _ _ _ _ _ _ _ _ _ Hreg) as Ht.
  rewrite registerService_ready by exact Hr. cbv zeta.
  rewrite He, Ha. simpl. rewrite Hh.
  unfold commitAndArm.
  destruct (Z.eqb (group_commit env (current_group s1)) 0) eqn:E0.
  { apply Z.eqb_eq in E0. contradiction. }
  simpl. eexists. split; [reflexivity|].
  unfold isValid, timer_isActive; simpl. rewrite Hg, E0, Ht.
  split; [reflexivity|]. split; [reflexivity|].
  exists es. split; [reflexivity | exact Hne].
Qed.

Lemma registerService_retry_commit_refused_witness :
  exists s',
    registerService (env_taken []) 1 "printer" any_ipv4 9100 "_ipp._tcp"
                    office false initial = Some (false, s') /\
    isValid s' = false /\
    timer_isActive (m_reregisterTimer s') = true /\
    exists es, d_group s' = Some (mkGroup es true) /\ es <> [].
Proof.
  apply (registerService_retry_commit_refused (env_taken []) 0%nat "printer"
           any_ipv4 9100 "_ipp._tcp" office false initial
           (match handleCollision (env_taken []) 0
                    (set_error AVAHI_ERR_COLLISION
                       (set_serviceList (Some office)
                          (set_group (Some (current_group initial))
                             (cacheDescriptor "printer" any_ipv4 9100
                                "_ipp._tcp" office initial)))) with
            | Some (_, s1) => s1 | None => initial end));
    vm_compute; first [reflexivity | discriminate].
Defined.

(** X: [isValid] tracks only the group handle and the last error, not
    publication: resetting a valid service withdraws every entry, yet the
    service stays valid. *)
Theorem isValid_after_resetService (silent : bool) (s : Service) :
  isValid s = true ->
  isValid (resetService silent s) = true /\
  group_is_empty (current_group (resetService silent s)) = true.
Proof.
  intros H. rewrite resetService_current_group. split; [|reflexivity].
  unfold isValid, resetService in *.
  destruct (d_group s); simpl; [exact H | discriminate].
Qed.

Lemma isValid_after_resetService_witness :
  isValid (resetService false printer_state) = true /\
  group_is_empty (current_group (resetService false printer_state)) = true.
Proof.
  apply isValid_after_resetService. vm_compute. reflexivity.
Defined.
